(** * Kado: the web client (page component) and the analysis pipeline

    The client is embedded from [web/src/app]: the [Home] component with its
    helpers [formatTimestamp], [formatFileSize] and [confidenceClass], its
    handlers [handleFile], [analyze], [copyJson] and [reset], and the element
    it returns.  The analysis pipeline behind [POST /analyze] is not among
    the sources; its extraction engine, merger and final ordering are
    modelled from the specification.

    JavaScript numbers are IEEE 754 binary64 values; they are represented by
    [spec_float] with the operations of the standard library's [SpecFloat]
    at precision 53.  Strings are strings of bytes. *)

From Stdlib Require Import ZArith List String Ascii Bool Lia.
From Stdlib Require Import Floats.SpecFloat.
From Stdlib Require Import Sorting.Sorted Sorting.Permutation.
Import ListNotations.
Local Open Scope string_scope.
Local Open Scope Z_scope.

(** ** The JavaScript runtime: numbers and strings *)

Module JS.

(** A [number] is a binary64 value. *)
Definition number : Type := spec_float.

Definition prec : Z := 53.
Definition emax : Z := 1024.

Definition js_div : number -> number -> number := SFdiv prec emax.
Definition js_mul : number -> number -> number := SFmul prec emax.
Definition js_sub : number -> number -> number := SFsub prec emax.
Definition js_abs : number -> number := SFabs.

(** [x < y], [x <= y] and [x >= y]; every comparison with NaN is false. *)
Definition js_lt (x y : number) : bool := SFltb x y.
Definition js_le (x y : number) : bool := SFleb x y.
Definition js_ge (x y : number) : bool := SFleb y x.
Definition js_gt (x y : number) : bool := SFltb y x.

(** The number denoted by an integer literal (exact below 2^53). *)
Definition num_of_Z (z : Z) : number := binary_normalize prec emax z 0 false.

(** The number denoted by the decimal literal [a/b], for instance
    [num_ratio 7 10] for [0.7]: the quotient of two exact integers is
    correctly rounded, as the literal is. *)
Definition num_ratio (a b : Z) : number := js_div (num_of_Z a) (num_of_Z b).

(** Left shifts bring an exactly representable magnitude [m * 2^e] to the
    canonical mantissa and exponent; no rounding takes place. *)
Definition canon (s : bool) (m : positive) (e : Z) : number :=
  match Z.max 0 (Z.min (prec - Zpos (digits2_pos m)) (e - emin prec emax)) with
  | Zpos d => S754_finite s (Pos.iter xO m d) (e - Zpos d)
  | _ => S754_finite s m e
  end.

(** The number whose value is the integer [n] (of at most 53 bits); [s] is
    the sign given to a zero. *)
Definition of_int (s : bool) (n : Z) : number :=
  match n with
  | Z0 => S754_zero s
  | Zpos p => canon false p 0
  | Zneg p => canon true p 0
  end.

(** [Math.floor]: a value with a non-negative exponent is an integer
    already; otherwise the mantissa is shifted right, which rounds towards
    minus infinity.  [Math.floor(0.3)] is [+0]. *)
Definition Math_floor (x : number) : number :=
  match x with
  | S754_finite s m e =>
      if 0 <=? e then x else of_int s (Z.shiftl (cond_Zopp s (Zpos m)) e)
  | _ => x
  end.

(** [Math.round]: the nearest integer, a tie going towards plus infinity,
    that is [floor (x + 1/2)] computed exactly. *)
Definition Math_round (x : number) : number :=
  match x with
  | S754_finite s m e =>
      if 0 <=? e then x
      else of_int s (Z.shiftl (2 * cond_Zopp s (Zpos m) + 2 ^ (- e)) (e - 1))
  | _ => x
  end.

(** [x % y]: the remainder of the truncating division, with the sign of the
    dividend.  It is always representable, so it is computed exactly on the
    mantissas brought to the smaller of the two exponents. *)
Definition js_rem (x y : number) : number :=
  match x, y with
  | S754_nan, _ | _, S754_nan => S754_nan
  | S754_infinity _, _ => S754_nan
  | _, S754_zero _ => S754_nan
  | _, S754_infinity _ => x
  | S754_zero _, _ => x
  | S754_finite sx mx ex, S754_finite _ my ey =>
      let e0 := Z.min ex ey in
      let r := Z.shiftl (Zpos mx) (ex - e0) mod Z.shiftl (Zpos my) (ey - e0) in
      match r with
      | Zpos p => canon sx p e0
      | _ => S754_zero sx
      end
  end.

(** *** Strings *)

Definition digit_char (d : Z) : ascii := ascii_of_nat (48 + Z.to_nat d).

Fixpoint dec_fuel (fuel : nat) (n : Z) (acc : string) : string :=
  match fuel with
  | O => acc
  | S f =>
      let acc' := String (digit_char (n mod 10)) acc in
      if n <? 10 then acc' else dec_fuel f (n / 10) acc'
  end.

(** The decimal digits of a non-negative integer. *)
Definition dec_nonneg (n : Z) : string :=
  dec_fuel (S (Z.to_nat (Z.log2 n))) n "".

(** The decimal representation of an integer, as string conversion gives it
    for an integral number below 2^53. *)
Definition dec (n : Z) : string :=
  if n <? 0 then "-" ++ dec_nonneg (- n) else dec_nonneg n.

Fixpoint repeat_char (c : ascii) (n : nat) : string :=
  match n with
  | O => ""
  | S k => String c (repeat_char c k)
  end.

(** [fill] repeated and cut to exactly [n] characters. *)
Fixpoint fill_to (fill cur : string) (n : nat) : string :=
  match n with
  | O => ""
  | S k =>
      match cur with
      | String c rest => String c (fill_to fill rest k)
      | EmptyString =>
          match fill with
          | String c rest => String c (fill_to fill rest k)
          | EmptyString => ""
          end
      end
  end.

(** [s.padStart(target, fill)]. *)
Definition padStart (s : string) (target : nat) (fill : string) : string :=
  if (target <=? String.length s)%nat then s
  else fill_to fill fill (target - String.length s) ++ s.

Definition lower_char (c : ascii) : ascii :=
  let n := nat_of_ascii c in
  if ((65 <=? n) && (n <=? 90))%nat then ascii_of_nat (n + 32) else c.

(** [s.toLowerCase()] on the ASCII letters.  No character outside ASCII is
    lowered to a letter of "mp4", "mov" or "webm", so membership of the
    lowered extension in that list is not affected. *)
Fixpoint toLowerCase (s : string) : string :=
  match s with
  | EmptyString => EmptyString
  | String c rest => String (lower_char c) (toLowerCase rest)
  end.

(** [s.split(sep)] for a one-character separator: never empty. *)
Fixpoint split (sep : ascii) (s : string) : list string :=
  match s with
  | EmptyString => [""]
  | String c rest =>
      let l := split sep rest in
      if Ascii.eqb c sep then "" :: l
      else match l with
           | hd :: tl => String c hd :: tl
           | [] => [String c ""]
           end
  end.

(** [a.pop()]: the last element, [undefined] on the empty array. *)
Fixpoint pop {A : Type} (l : list A) : option A :=
  match l with
  | [] => None
  | [x] => Some x
  | _ :: tl => pop tl
  end.

(** [a.includes(x)] on an array of strings. *)
Definition includes (l : list string) (x : string) : bool :=
  existsb (String.eqb x) l.

(** *** Conversion of numbers to strings *)

(** Comparison and distance of a candidate [s * 10^p] to a value
    [v * 2^e], both over the common denominator [2^(-e) * 10^(-p)]. *)
Definition sc_cand (s p e : Z) : Z := s * 10 ^ Z.max p 0 * 2 ^ Z.max (- e) 0.
Definition sc_val (v p e : Z) : Z := v * 2 ^ Z.max e 0 * 10 ^ Z.max (- p) 0.
Definition sc_den (p e : Z) : Z := 10 ^ Z.max (- p) 0 * 2 ^ Z.max (- e) 0.

Record digits := { dg_n : Z; dg_k : Z; dg_s : Z; dg_num : Z; dg_den : Z }.

(** The candidates with [k] digits for the value [x4 * 2^e] whose rounding
    interval is [lo4 * 2^e, hi4 * 2^e] (closed when [incl]): [s * 10^(n-k)]
    with [10^(k-1) <= s < 10^k] inside the interval. *)
Definition candidates (x4 lo4 hi4 e : Z) (incl : bool) (nest k : Z) : list digits :=
  flat_map (fun n =>
    let p := n - k in
    let s0 := sc_val x4 p e / (2 ^ Z.max (- e) 0 * 10 ^ Z.max p 0) in
    flat_map (fun s =>
      let c := sc_cand s p e in
      let inside :=
        if incl then (sc_val lo4 p e <=? c) && (c <=? sc_val hi4 p e)
        else (sc_val lo4 p e <? c) && (c <? sc_val hi4 p e) in
      if (10 ^ (k - 1) <=? s) && (s <? 10 ^ k) && inside
      then [{| dg_n := n; dg_k := k; dg_s := s;
               dg_num := Z.abs (c - sc_val x4 p e); dg_den := sc_den p e |}]
      else []) [s0; s0 + 1])
  [nest - 1; nest; nest + 1; nest + 2].

(** The candidate closest to the value; of two equally close, the even one. *)
Definition closer (a b : digits) : digits :=
  match dg_num a * dg_den b ?= dg_num b * dg_den a with
  | Lt => a
  | Gt => b
  | Eq => if Z.even (dg_s a) then a else b
  end.

Fixpoint shortest_from (x4 lo4 hi4 e : Z) (incl : bool) (nest : Z)
  (ks : list Z) : option digits :=
  match ks with
  | [] => None
  | k :: rest =>
      match candidates x4 lo4 hi4 e incl nest k with
      | c :: cs => Some (fold_left closer cs c)
      | [] => shortest_from x4 lo4 hi4 e incl nest rest
      end
  end.

(** The integers [n], [k] and [s] of the specification of string
    conversion: [k] is as small as possible such that [s * 10^(n-k)]
    converts back to [m * 2^e]. *)
Definition shortest (m : positive) (e : Z) : option digits :=
  let low := if (Zpos m =? 2 ^ (prec - 1)) && (emin prec emax <? e) then 1 else 2 in
  let bits := Zpos (digits2_pos m) + e in
  shortest_from (4 * Zpos m) (4 * Zpos m - low) (4 * Zpos m + 2) (e - 2)
    (Z.even (Zpos m)) ((bits - 1) * 30103 / 100000 + 1)
    [1; 2; 3; 4; 5; 6; 7; 8; 9; 10; 11; 12; 13; 14; 15; 16; 17].

Definition zeros (n : Z) : string := repeat_char "0"%char (Z.to_nat n).

Definition format_digits (d : digits) : string :=
  let n := dg_n d in
  let k := dg_k d in
  let ds := dec_nonneg (dg_s d) in
  if (k <=? n) && (n <=? 21) then ds ++ zeros (n - k)
  else if (0 <? n) && (n <=? 21)
  then substring 0 (Z.to_nat n) ds ++ "." ++ substring (Z.to_nat n) (Z.to_nat (k - n)) ds
  else if (-6 <? n) && (n <=? 0) then "0." ++ zeros (- n) ++ ds
  else
    let ex := (if n - 1 <? 0 then "-" else "+") ++ dec_nonneg (Z.abs (n - 1)) in
    if k =? 1 then ds ++ "e" ++ ex
    else substring 0 1 ds ++ "." ++ substring 1 (Z.to_nat (k - 1)) ds ++ "e" ++ ex.

(** [String(x)], [x.toString()] and the conversion of a template literal. *)
Definition Number_toString (x : number) : string :=
  match x with
  | S754_nan => "NaN"
  | S754_zero _ => "0"
  | S754_infinity s => if s then "-Infinity" else "Infinity"
  | S754_finite s m e =>
      (if s then "-" else "") ++
      match shortest m e with
      | Some d => format_digits d
      | None => ""
      end
  end.

(** [x.toFixed(f)]: the integer [n] with [n / 10^f] closest to [|x|], the
    larger of two equally close ones, written with [f] fraction digits. *)
Definition toFixed (x : number) (f : nat) : string :=
  match x with
  | S754_finite s m e =>
      if js_le (num_of_Z (10 ^ 21)) (js_abs x) then Number_toString x
      else
        let scaled := Zpos m * 10 ^ Z.of_nat f in
        let n := if 0 <=? e then Z.shiftl scaled e
                 else Z.shiftl (2 * scaled + 2 ^ (- e)) (e - 1) in
        let ds := padStart (dec_nonneg n) (S f) "0" in
        let k := String.length ds in
        (if s then "-" else "") ++
        match f with
        | O => ds
        | _ => substring 0 (k - f) ds ++ "." ++ substring (k - f) f ds
        end
  | S754_zero _ =>
      match f with
      | O => "0"
      | _ => "0." ++ repeat_char "0"%char f
      end
  | _ => Number_toString x
  end.

(** *** Conversion of strings to numbers *)

Definition code (c : ascii) : Z := Z.of_N (N_of_ascii c).

(** The number of bytes of the white space or line terminator that the
    bytes start with, 0 when there is none: TAB, LF, VT, FF, CR, SP, and in
    UTF-8 U+00A0, U+1680, U+2000 to U+200A, U+2028, U+2029, U+202F, U+205F,
    U+3000 and U+FEFF. *)
Definition white_space_at (l : list Z) : nat :=
  match l with
  | 9 :: _ | 10 :: _ | 11 :: _ | 12 :: _ | 13 :: _ | 32 :: _ => 1%nat
  | 194 :: 160 :: _ => 2%nat
  | 225 :: 154 :: 128 :: _ => 3%nat
  | 226 :: 128 :: c :: _ =>
      if ((128 <=? c) && (c <=? 138)) || (c =? 168) || (c =? 169) || (c =? 175)
      then 3%nat else 0%nat
  | 226 :: 129 :: 159 :: _ => 3%nat
  | 227 :: 128 :: 128 :: _ => 3%nat
  | 239 :: 187 :: 191 :: _ => 3%nat
  | _ => 0%nat
  end.

(** The same for bytes read backwards from the end of a string. *)
Definition white_space_before (l : list Z) : nat :=
  match l with
  | 9 :: _ | 10 :: _ | 11 :: _ | 12 :: _ | 13 :: _ | 32 :: _ => 1%nat
  | 160 :: 194 :: _ => 2%nat
  | 128 :: 154 :: 225 :: _ => 3%nat
  | 159 :: 129 :: 226 :: _ => 3%nat
  | 128 :: 128 :: 227 :: _ => 3%nat
  | 191 :: 187 :: 239 :: _ => 3%nat
  | c :: 128 :: 226 :: _ =>
      if ((128 <=? c) && (c <=? 138)) || (c =? 168) || (c =? 169) || (c =? 175)
      then 3%nat else 0%nat
  | _ => 0%nat
  end.

Fixpoint drop_white_space (fuel : nat) (at_head : list Z -> nat) (l : list Z) : list Z :=
  match fuel with
  | O => l
  | S f =>
      match at_head l with
      | O => l
      | k => drop_white_space f at_head (skipn k l)
      end
  end.

Definition trim_codes (l : list Z) : list Z :=
  let l1 := drop_white_space (List.length l) white_space_at l in
  rev (drop_white_space (List.length l1) white_space_before (rev l1)).

Definition digit_value (base c : Z) : option Z :=
  let d := if (48 <=? c) && (c <=? 57) then c - 48
           else if (97 <=? c) && (c <=? 102) then c - 87
           else if (65 <=? c) && (c <=? 70) then c - 55
           else base in
  if d <? base then Some d else None.

(** The digits the bytes start with: their value after [acc], their number
    after [n], and the bytes that follow them. *)
Fixpoint digits_prefix (base : Z) (l : list Z) (acc n : Z) : Z * Z * list Z :=
  match l with
  | c :: rest =>
      match digit_value base c with
      | Some d => digits_prefix base rest (acc * base + d) (n + 1)
      | None => (acc, n, l)
      end
  | [] => (acc, n, [])
  end.

(** The value of an exponent part that is all of [l]; no exponent part
    counts as 0. *)
Definition exponent_part (l : list Z) : option Z :=
  match l with
  | [] => Some 0
  | c :: rest =>
      if (c =? 101) || (c =? 69) then
        let '(sign, rest') :=
          match rest with
          | 43 :: r => (1, r)
          | 45 :: r => (-1, r)
          | _ => (1, rest)
          end in
        let '(v, n, tail) := digits_prefix 10 rest' 0 0 in
        match tail with
        | [] => if 0 <? n then Some (sign * v) else None
        | _ => None
        end
      else None
  end.

(** The number nearest to [mant * 10^e], the even one of two nearest; [s]
    is the sign.  (For a literal of more than 20 significant digits the
    standard lets an engine round the digits first; this is the value
    without that.) *)
Definition decimal_value (s : bool) (mant e : Z) : number :=
  match mant with
  | Zpos m =>
      if 0 <=? e
      then binary_normalize prec emax (cond_Zopp s (Zpos m * 10 ^ e)) 0 false
      else SFdiv prec emax (S754_finite s m 0)
             (S754_finite false (Z.to_pos (10 ^ (- e))) 0)
  | _ => S754_zero s
  end.

Definition Infinity_codes : list Z := [73; 110; 102; 105; 110; 105; 116; 121].

(** An unsigned decimal literal: "Infinity", or digits with an optional
    fraction and an optional exponent part, with a digit before or after
    the point; anything else is NaN. *)
Definition unsigned_decimal (s : bool) (l : list Z) : number :=
  if list_eq_dec Z.eq_dec l Infinity_codes then S754_infinity s
  else
    let '(i, ni, rest) := digits_prefix 10 l 0 0 in
    let '(mant, nf, rest') :=
      match rest with
      | 46 :: r => digits_prefix 10 r i 0
      | _ => (i, 0, rest)
      end in
    if (0 <? ni) || (0 <? nf) then
      match exponent_part rest' with
      | Some e => decimal_value s mant (e - nf)
      | None => S754_nan
      end
    else S754_nan.

(** A binary, octal or hexadecimal integer literal after its prefix. *)
Definition non_decimal (base : Z) (l : list Z) : number :=
  let '(v, n, tail) := digits_prefix base l 0 0 in
  match tail with
  | [] => if 0 <? n then binary_normalize prec emax v 0 false else S754_nan
  | _ => S754_nan
  end.

(** [Number(s)] for a string: white space is trimmed; the empty string is
    [+0]; a decimal literal may have a sign, a literal with the prefix
    [0x], [0o] or [0b] may not; every other string is NaN. *)
Definition StringToNumber (str : string) : number :=
  let l := trim_codes (map code (list_ascii_of_string str)) in
  match l with
  | [] => S754_zero false
  | 43 :: r => unsigned_decimal false r
  | 45 :: r => unsigned_decimal true r
  | 48 :: x :: r =>
      if (x =? 120) || (x =? 88) then non_decimal 16 r
      else if (x =? 111) || (x =? 79) then non_decimal 8 r
      else if (x =? 98) || (x =? 66) then non_decimal 2 r
      else unsigned_decimal false l
  | _ => unsigned_decimal false l
  end.

End JS.

Import JS.

(** ** JSON values and the operations the client applies to them *)

Module Json.

Local Set Warnings "-register-all".

Inductive json :=
| JNull
| JBool (b : bool)
| JNum (x : number)
| JStr (s : string)
| JArr (items : list json)
| JObj (fields : list (string * json)).

(** A thrown value: an [Error] object with its message, or anything else. *)
Inductive thrown :=
| ErrorObj (message : string)
| NonError.

(** The outcome of an evaluation that may throw. *)
Inductive completion (A : Type) :=
| Normal (v : A)
| Throw (e : thrown).
Arguments Normal {A} v.
Arguments Throw {A} e.

(** The own properties of a parsed object, keys distinct. *)
Fixpoint lookup (k : string) (fields : list (string * json)) : option json :=
  match fields with
  | [] => None
  | (k', v) :: rest => if String.eqb k k' then Some v else lookup k rest
  end.

(** Messages of the engine's own errors. *)
Definition TypeError_read_null (prop : string) : thrown :=
  ErrorObj ("Cannot read properties of null (reading '" ++ prop ++ "')").
Definition TypeError_to_primitive : thrown :=
  ErrorObj "Cannot convert object to primitive value".

(** [v.prop] for a property that no prototype defines: reading it from
    [null] throws, an object gives its own property, every other value gives
    [undefined] ([None]). *)
Definition get_prop (v : json) (prop : string) : completion (option json) :=
  match v with
  | JNull => Throw (TypeError_read_null prop)
  | JObj fields => Normal (lookup prop fields)
  | _ => Normal None
  end.

Definition is_falsy_number (x : number) : bool :=
  match x with
  | S754_zero _ | S754_nan => true
  | _ => false
  end.

(** Truthiness: [undefined], [null], [false], zeros, NaN and the empty
    string are falsy. *)
Definition truthy (v : option json) : bool :=
  match v with
  | None | Some JNull => false
  | Some (JBool b) => b
  | Some (JNum x) => negb (is_falsy_number x)
  | Some (JStr s) => negb (String.eqb s "")
  | Some (JArr _) | Some (JObj _) => true
  end.

(** [String(v)].  An array joins the conversions of its elements with
    commas, [null] elements giving the empty string; an object gives
    "[object Object]" unless an own (hence not callable) [toString] property
    hides the inherited method, in which case the conversion throws. *)
Fixpoint ToString (v : json) : completion string :=
  match v with
  | JNull => Normal "null"
  | JBool b => Normal (if b then "true" else "false")
  | JNum x => Normal (Number_toString x)
  | JStr s => Normal s
  | JArr items =>
      let fix join (l : list json) : completion string :=
        match l with
        | [] => Normal ""
        | x :: rest =>
            match (match x with JNull => Normal "" | _ => ToString x end) with
            | Throw e => Throw e
            | Normal sx =>
                match rest with
                | [] => Normal sx
                | _ => match join rest with
                       | Throw e => Throw e
                       | Normal sr => Normal (sx ++ "," ++ sr)
                       end
                end
            end
        end in
      join items
  | JObj fields =>
      match lookup "toString" fields with
      | Some _ => Throw TypeError_to_primitive
      | None => Normal "[object Object]"
      end
  end.

(** [Number(v)], the conversion that arithmetic and comparison with a
    number apply to an operand; [None] is [undefined].  An array or object
    is first brought to a primitive: its inherited [valueOf] gives the value
    itself, so the string conversion decides. *)
Definition ToNumber (v : option json) : completion number :=
  match v with
  | None => Normal S754_nan
  | Some JNull => Normal (S754_zero false)
  | Some (JBool b) => Normal (if b then num_of_Z 1 else S754_zero false)
  | Some (JNum x) => Normal x
  | Some (JStr s) => Normal (StringToNumber s)
  | Some o =>
      match ToString o with
      | Normal s => Normal (StringToNumber s)
      | Throw e => Throw e
      end
  end.

End Json.

Import Json.

(** ** The page component *)

Module Page.

(** *** Types *)

Record FailureEvent := {
  timestamp_seconds : number;
  title : string;
  expected : string;
  actual : string;
  evidence : string;
  confidence : number
}.

Record AnalyzeResponse := { failures : list FailureEvent }.

(** The five values of [AppState]: "idle", "selected", "analyzing", "done"
    and "error". *)
Inductive AppState := st_idle | st_selected | st_analyzing | st_done | st_error.

(** A [File] of the browser: the client reads its name and its size. *)
Record File := { name : string; size : number }.

(** *** Constants *)

Definition ACCEPTED_FORMATS : string := ".mp4,.mov,.webm".
Definition MAX_SIZE_MB : Z := 500.

Definition PIPELINE_STEPS : list string :=
  [ "Extracting audio from video";
    "Transcribing narration";
    "Scanning for failure signals";
    "Analyzing with AI";
    "Deduplicating results" ].

(** *** Helpers *)

Definition formatTimestamp (seconds : number) : string :=
  let m := Math_floor (js_div seconds (num_of_Z 60)) in
  let s := Math_floor (js_rem seconds (num_of_Z 60)) in
  Number_toString m ++ ":" ++ padStart (Number_toString s) 2 "0".

Definition formatFileSize (bytes : number) : string :=
  if js_lt bytes (num_of_Z (1024 * 1024))
  then toFixed (js_div bytes (num_of_Z 1024)) 0 ++ " KB"
  else toFixed (js_div bytes (num_of_Z (1024 * 1024))) 1 ++ " MB".

Definition confidenceClass (c : number) : string :=
  if js_ge c (num_ratio 7 10) then "confidence-high"
  else if js_ge c (num_ratio 4 10) then "confidence-medium"
  else "confidence-low".

(** *** The network *)

(** The entries of a [FormData] body. *)
Definition FormData : Type := list (string * File).

Record Request := { url : string; method : string; body : FormData }.

(** What [res.json()] settles to. *)
Inductive JsonResult :=
| JsonRejected (e : thrown)
| JsonValue (data : json).

Record Response := {
  status : Z;
  statusText : string;
  json_result : JsonResult
}.

(** [res.ok]: the status is in the range 200-299. *)
Definition ok (res : Response) : bool :=
  (200 <=? status res) && (status res <=? 299).

(** What [fetch] settles to. *)
Inductive FetchResult :=
| FetchRejected (e : thrown)
| FetchResolved (res : Response).

(** *** The state of the component

    The eight state variables of [Home], and [stepInterval]: whether the
    interval armed by [analyze] is still running, which is the case exactly
    while its request is in flight. *)
Record Home := {
  state : AppState;
  file : option File;
  result : option json;
  error : string;
  copied : bool;
  showJson : bool;
  activeStep : Z;
  dragover : bool;
  stepInterval : bool
}.

Definition initial : Home :=
  {| state := st_idle; file := None; result := None; error := "";
     copied := false; showJson := false; activeStep := 0;
     dragover := false; stepInterval := false |}.

Definition setState (v : AppState) (h : Home) : Home :=
  {| state := v; file := file h; result := result h; error := error h;
     copied := copied h; showJson := showJson h; activeStep := activeStep h;
     dragover := dragover h; stepInterval := stepInterval h |}.

Definition setFile (v : option File) (h : Home) : Home :=
  {| state := state h; file := v; result := result h; error := error h;
     copied := copied h; showJson := showJson h; activeStep := activeStep h;
     dragover := dragover h; stepInterval := stepInterval h |}.

Definition setResult (v : option json) (h : Home) : Home :=
  {| state := state h; file := file h; result := v; error := error h;
     copied := copied h; showJson := showJson h; activeStep := activeStep h;
     dragover := dragover h; stepInterval := stepInterval h |}.

Definition setError (v : string) (h : Home) : Home :=
  {| state := state h; file := file h; result := result h; error := v;
     copied := copied h; showJson := showJson h; activeStep := activeStep h;
     dragover := dragover h; stepInterval := stepInterval h |}.

Definition setCopied (v : bool) (h : Home) : Home :=
  {| state := state h; file := file h; result := result h; error := error h;
     copied := v; showJson := showJson h; activeStep := activeStep h;
     dragover := dragover h; stepInterval := stepInterval h |}.

Definition setShowJson (v : bool) (h : Home) : Home :=
  {| state := state h; file := file h; result := result h; error := error h;
     copied := copied h; showJson := v; activeStep := activeStep h;
     dragover := dragover h; stepInterval := stepInterval h |}.

(** [setActiveStep] takes an updater, as in the interval's callback. *)
Definition setActiveStep (upd : Z -> Z) (h : Home) : Home :=
  {| state := state h; file := file h; result := result h; error := error h;
     copied := copied h; showJson := showJson h;
     activeStep := upd (activeStep h);
     dragover := dragover h; stepInterval := stepInterval h |}.

Definition setDragover (v : bool) (h : Home) : Home :=
  {| state := state h; file := file h; result := result h; error := error h;
     copied := copied h; showJson := showJson h; activeStep := activeStep h;
     dragover := v; stepInterval := stepInterval h |}.

Definition setStepInterval (v : bool) (h : Home) : Home :=
  {| state := state h; file := file h; result := result h; error := error h;
     copied := copied h; showJson := showJson h; activeStep := activeStep h;
     dragover := dragover h; stepInterval := v |}.

(** *** File selection *)

(** [f.name.split(".").pop()?.toLowerCase()], then [ext || ""]: the text
    after the last dot of the name, the whole name when it has no dot. *)
Definition file_ext (f : File) : string :=
  match option_map toLowerCase (pop (split "." (name f))) with
  | Some ext => if String.eqb ext "" then "" else ext
  | None => ""
  end.

Definition max_size : number := num_of_Z (MAX_SIZE_MB * 1024 * 1024).

Definition unsupported_format : string :=
  "Unsupported format. Please upload MP4, MOV, or WebM.".

Definition file_too_large (f : File) : string :=
  "File too large (" ++ formatFileSize (size f) ++ "). Max is "
    ++ dec MAX_SIZE_MB ++ " MB.".

Definition handleFile (f : File) (h : Home) : Home :=
  if negb (includes ["mp4"; "mov"; "webm"] (file_ext f)) then
    setState st_error (setError unsupported_format h)
  else if js_gt (size f) max_size then
    setState st_error (setError (file_too_large f) h)
  else
    setResult None (setError "" (setState st_selected (setFile (Some f) h))).

Definition onDrop (dropped : option File) (h : Home) : Home :=
  let h := setDragover false h in
  match dropped with
  | Some f => handleFile f h
  | None => h
  end.

Definition onDragOver (h : Home) : Home := setDragover true h.

Definition onDragLeave (h : Home) : Home := setDragover false h.

Definition onFileInput (chosen : option File) (h : Home) : Home :=
  match chosen with
  | Some f => handleFile f h
  | None => h
  end.

(** *** Analyze *)

Section Analyze.

(** The value of [process.env.NEXT_PUBLIC_API_URL], if it is set. *)
Variable NEXT_PUBLIC_API_URL : option string.

Definition API_URL : string :=
  match NEXT_PUBLIC_API_URL with
  | Some u => if String.eqb u "" then "http://localhost:8000" else u
  | None => "http://localhost:8000"
  end.

(** The callback of the interval. *)
Definition tick (h : Home) : Home :=
  setActiveStep
    (fun prev => Z.min (prev + 1) (Z.of_nat (List.length PIPELINE_STEPS) - 1)) h.

(** [analyze] up to its [await fetch(...)]: the state is reset, the interval
    armed, the form built and the request sent. *)
Definition analyze_begin (h : Home) : Home * list Request :=
  match file h with
  | None => (h, [])
  | Some f =>
      let h := setError "" (setResult None
                 (setActiveStep (fun _ => 0) (setState st_analyzing h))) in
      let h := setStepInterval true h in
      let form : FormData := [("file", f)] in
      (h, [{| url := API_URL ++ "/analyze"; method := "POST"; body := form |}])
  end.

(** The [catch] block. *)
Definition analyze_catch (err : thrown) (h : Home) : Home :=
  let h := setStepInterval false h in
  let h := setError (match err with
                     | ErrorObj message => message
                     | NonError => "Something went wrong"
                     end) h in
  setState st_error h.

(** [analyze] from the point where [fetch] settles. *)
Definition analyze_settle (r : FetchResult) (h : Home) : Home :=
  match r with
  | FetchRejected e => analyze_catch e h
  | FetchResolved res =>
      let h := setStepInterval false h in
      if negb (ok res) then
        let body :=
          match json_result res with
          | JsonRejected _ => JObj [("detail", JStr (statusText res))]
          | JsonValue data => data
          end in
        match get_prop body "detail" with
        | Throw e => analyze_catch e h
        | Normal detail =>
            let message :=
              if truthy detail
              then match detail with
                   | Some d => ToString d
                   | None => Normal "undefined"
                   end
              else Normal ("HTTP " ++ dec (status res)) in
            match message with
            | Throw e => analyze_catch e h
            | Normal m => analyze_catch (ErrorObj m) h
            end
        end
      else
        match json_result res with
        | JsonRejected e => analyze_catch e h
        | JsonValue data => setState st_done (setResult (Some data) h)
        end
  end.

End Analyze.


(** *** Copy and reset *)

(** [copyJson] up to its timeout; the clipboard is not modelled. *)
Definition copyJson (h : Home) : Home :=
  if truthy (result h) then setCopied true h else h.

Definition copyJson_timeout (h : Home) : Home := setCopied false h.

Definition reset (h : Home) : Home :=
  setActiveStep (fun _ => 0) (setShowJson false (setCopied false
    (setState st_idle (setError "" (setResult None (setFile None h)))))).

(** *** What is rendered *)

Inductive StepMark := step_done | step_active | step_pending.

Definition step_mark (i active : Z) : StepMark :=
  if i <? active then step_done
  else if i =? active then step_active
  else step_pending.

Record FileInfo := { file_name : string; file_size : string }.

(** A failure card. *)
Record Card := {
  failure_timestamp : string;
  failure_confidence_class : string;
  failure_confidence : string;
  failure_title : string;
  failure_expected : string;
  failure_actual : string;
  failure_evidence : string
}.

Definition failure_card (f : FailureEvent) : Card :=
  {| failure_timestamp := formatTimestamp (timestamp_seconds f);
     failure_confidence_class := confidenceClass (confidence f);
     failure_confidence :=
       Number_toString (Math_round (js_mul (confidence f) (num_of_Z 100)))
         ++ "% confidence";
     failure_title := title f;
     failure_expected := expected f;
     failure_actual := actual f;
     failure_evidence := evidence f |}.

Record Results := {
  results_count : string;
  copy_btn_copied : bool;
  no_failures : bool;
  failure_list : list Card;
  json_content_shown : bool
}.

Definition results_of (r : AnalyzeResponse) (h : Home) : Results :=
  let n := Z.of_nat (List.length (failures r)) in
  {| results_count :=
       dec n ++ " failure" ++ (if negb (n =? 1) then "s" else "") ++ " detected";
     copy_btn_copied := copied h;
     no_failures := n =? 0;
     failure_list := map failure_card (failures r);
     json_content_shown := showJson h |}.

(** The conditional blocks of the returned element, in their order.  In
    the place of the results block a result that is a falsy number stands
    itself, as text. *)
Record View := {
  upload_zone : option bool;
  file_info : option FileInfo;
  progress_steps : option (list (string * StepMark));
  error_message : option string;
  results : option Results;
  results_placeholder : option string
}.

(** The data of the declared type [AnalyzeResponse] that a JSON value
    carries, if it has that type. *)
Definition as_number (v : option json) : option number :=
  match v with
  | Some (JNum x) => Some x
  | _ => None
  end.

Definition as_string (v : option json) : option string :=
  match v with
  | Some (JStr s) => Some s
  | _ => None
  end.

Definition as_FailureEvent (j : json) : option FailureEvent :=
  match j with
  | JObj fields =>
      match as_number (lookup "timestamp_seconds" fields),
            as_string (lookup "title" fields),
            as_string (lookup "expected" fields),
            as_string (lookup "actual" fields),
            as_string (lookup "evidence" fields),
            as_number (lookup "confidence" fields) with
      | Some t, Some ti, Some ex, Some ac, Some ev, Some c =>
          Some {| timestamp_seconds := t; title := ti; expected := ex;
                  actual := ac; evidence := ev; confidence := c |}
      | _, _, _, _, _, _ => None
      end
  | _ => None
  end.

Fixpoint traverse {A B : Type} (f : A -> option B) (l : list A) : option (list B) :=
  match l with
  | [] => Some []
  | x :: rest =>
      match f x, traverse f rest with
      | Some y, Some ys => Some (y :: ys)
      | _, _ => None
      end
  end.

Definition as_AnalyzeResponse (j : json) : option AnalyzeResponse :=
  match j with
  | JObj fields =>
      match lookup "failures" fields with
      | Some (JArr items) =>
          option_map Build_AnalyzeResponse (traverse as_FailureEvent items)
      | _ => None
      end
  | _ => None
  end.

(** The JSON form of a response of the declared type. *)
Definition FailureEvent_json (f : FailureEvent) : json :=
  JObj [ ("timestamp_seconds", JNum (timestamp_seconds f));
         ("title", JStr (title f));
         ("expected", JStr (expected f));
         ("actual", JStr (actual f));
         ("evidence", JStr (evidence f));
         ("confidence", JNum (confidence f)) ].

Definition AnalyzeResponse_json (r : AnalyzeResponse) : json :=
  JObj [ ("failures", JArr (map FailureEvent_json (failures r))) ].

Definition AppState_eqb (a b : AppState) : bool :=
  match a, b with
  | st_idle, st_idle | st_selected, st_selected | st_analyzing, st_analyzing
  | st_done, st_done | st_error, st_error => true
  | _, _ => false
  end.

(** What React shows for a child: a string is itself, a number its string
    conversion, [undefined] ([None]), [null] and the booleans nothing, an
    array its elements one after the other; an object is not a valid child,
    and rendering it throws ([None]). *)
Fixpoint child_text (v : json) : option string :=
  match v with
  | JNull | JBool _ => Some ""
  | JNum x => Some (Number_toString x)
  | JStr s => Some s
  | JArr items =>
      let fix children (l : list json) : option string :=
        match l with
        | [] => Some ""
        | x :: rest =>
            match child_text x, children rest with
            | Some sx, Some sr => Some (sx ++ sr)
            | _, _ => None
            end
        end in
      children items
  | JObj _ => None
  end.

Definition child (v : option json) : option string :=
  match v with
  | Some j => child_text j
  | None => Some ""
  end.

(** What a failure card takes from an element [f] of the array, whatever
    the element is: the numbers that [f.timestamp_seconds] and
    [f.confidence] are converted to where [formatTimestamp],
    [confidenceClass] and the multiplication use them, and the texts shown
    for the four other properties.  [None] when rendering the card throws:
    the element is [null], a conversion throws, or a property to show is an
    object. *)
Definition event_shown (f : json) : option FailureEvent :=
  match get_prop f "timestamp_seconds", get_prop f "title",
        get_prop f "expected", get_prop f "actual",
        get_prop f "evidence", get_prop f "confidence" with
  | Normal t, Normal ti, Normal ex, Normal ac, Normal ev, Normal c =>
      match ToNumber t, child ti, child ex, child ac, child ev, ToNumber c with
      | Normal t', Some ti', Some ex', Some ac', Some ev', Normal c' =>
          Some {| timestamp_seconds := t'; title := ti'; expected := ex';
                  actual := ac'; evidence := ev'; confidence := c' |}
      | _, _, _, _, _, _ => None
      end
  | _, _, _, _, _, _ => None
  end.

(** The events whose cards the results block shows for a truthy [result].
    [None] when rendering the block throws: [result.failures] is
    [undefined] or [null], whose [length] cannot be read; or it is not an
    array, so that its [map] is not a function; or the card of an element
    throws. *)
Definition failures_shown (data : json) : option (list FailureEvent) :=
  match get_prop data "failures" with
  | Normal (Some (JArr items)) => traverse event_shown items
  | _ => None
  end.

Definition results_block (data : json) (h : Home) : option Results :=
  option_map (fun shown => results_of {| failures := shown |} h)
    (failures_shown data).

(** The element [Home] returns; [None] when rendering throws, and nothing
    of the component is shown.  [state === "done" && result && (...)] is
    the results block for a truthy [result]; for a falsy one it is [result]
    itself, which React shows when it is a number (0 or NaN) and skips
    otherwise. *)
Definition render (h : Home) : option View :=
  let view (res : option Results) (placeholder : option string) :=
    {| upload_zone :=
         if AppState_eqb (state h) st_idle then Some (dragover h) else None;
       file_info :=
         match file h with
         | Some f =>
             if AppState_eqb (state h) st_selected
             then Some {| file_name := name f;
                          file_size := formatFileSize (size f) |}
             else None
         | None => None
         end;
       progress_steps :=
         if AppState_eqb (state h) st_analyzing
         then Some (map (fun '(step, i) => (step, step_mark i (activeStep h)))
                      (combine PIPELINE_STEPS
                         (map Z.of_nat (seq 0 (List.length PIPELINE_STEPS)))))
         else None;
       error_message :=
         if AppState_eqb (state h) st_error then Some (error h) else None;
       results := res;
       results_placeholder := placeholder |} in
  if AppState_eqb (state h) st_done then
    match result h with
    | Some data =>
        if truthy (Some data)
        then option_map (fun res => view (Some res) None) (results_block data h)
        else Some (view None
                     match data with
                     | JNum x => Some (Number_toString x)
                     | _ => None
                     end)
    | None => Some (view None None)
    end
  else Some (view None None).

(** The results block is on the page: the state is "done", the result is
    truthy, and rendering the block does not throw. *)
Definition results_shown (h : Home) : bool :=
  match render h with
  | Some v =>
      match results v with
      | Some _ => true
      | None => false
      end
  | None => false
  end.

(** *** Interaction *)

Inductive Event :=
| Drop (dropped : option File)
| DragOver
| DragLeave
| FileInput (chosen : option File)
| ClickAnalyze
| ClickReset
| ClickCopy
| ClickToggleJson
| IntervalTick
| CopyTimeout
| FetchSettled (r : FetchResult).

Section Interaction.

Variable NEXT_PUBLIC_API_URL : option string.

(** An event reaches its handler when the element that carries the handler
    is rendered (the upload zone when idle, the buttons of the blocks that
    are shown), the interval's callback while the interval runs, and the
    continuation of [analyze] while its request is in flight. *)
Definition step (h : Home) (ev : Event) : Home * list Request :=
  let shown_idle := AppState_eqb (state h) st_idle in
  let shown_selected :=
    AppState_eqb (state h) st_selected
      && match file h with Some _ => true | None => false end in
  let shown_error := AppState_eqb (state h) st_error in
  let shown_results := results_shown h in
  match ev with
  | Drop d => (if shown_idle then onDrop d h else h, [])
  | DragOver => (if shown_idle then onDragOver h else h, [])
  | DragLeave => (if shown_idle then onDragLeave h else h, [])
  | FileInput c => (if shown_idle then onFileInput c h else h, [])
  | ClickAnalyze =>
      if shown_selected then analyze_begin NEXT_PUBLIC_API_URL h else (h, [])
  | ClickReset =>
      (if shown_selected || shown_error || shown_results then reset h else h, [])
  | ClickCopy => (if shown_results then copyJson h else h, [])
  | ClickToggleJson =>
      (if shown_results then setShowJson (negb (showJson h)) h else h, [])
  | IntervalTick => (if stepInterval h then tick h else h, [])
  | CopyTimeout => (copyJson_timeout h, [])
  | FetchSettled r => (if stepInterval h then analyze_settle r h else h, [])
  end.

(** The component after a sequence of events, with the requests sent. *)
Fixpoint run (h : Home) (evs : list Event) : Home * list Request :=
  match evs with
  | [] => (h, [])
  | ev :: rest =>
      let '(h1, sent1) := step h ev in
      let '(h2, sent2) := run h1 rest in
      (h2, (sent1 ++ sent2)%list)
  end.

End Interaction.

End Page.
Import Page.

(** ** The analysis pipeline

    The stages after transcription: candidate detection, window building,
    the extraction engine with its repair retry, the merger and the final
    ordering.  The code of the pipeline is not among the sources; every
    stage is modelled from the specification. *)

Module Pipeline.

Record TranscriptSegment := { seg_start : number; seg_end : number; text : string }.

Record ContextWindow := { segments : list TranscriptSegment; center_index : nat }.

(** *** Candidate detection and windows *)

(** Modelled from the spec: the failure-signal vocabulary of the candidate
    detector, whose code is not among the sources. *)
Definition failure_signals : list string :=
  [ "doesn't"; "does not"; "nothing happens"; "broken"; "error"; "bug";
    "fails"; "wrong"; "stuck"; "crash"; "not working"; "issue"; "problem" ].

Fixpoint contains (needle hay : string) : bool :=
  match hay with
  | EmptyString => String.prefix needle hay
  | String _ rest => String.prefix needle hay || contains needle rest
  end.

(** Modelled from the spec: the candidate detector, whose code is not among
    the sources.  A segment is a candidate when its text contains, without
    regard to case, one of the signals as a substring. *)
Definition is_candidate (seg : TranscriptSegment) : bool :=
  existsb (fun signal => contains signal (toLowerCase (text seg))) failure_signals.

Definition detect_candidates (transcript : list TranscriptSegment) : list nat :=
  filter (fun i => match nth_error transcript i with
                   | Some seg => is_candidate seg
                   | None => false
                   end)
         (seq 0 (List.length transcript)).

(** Modelled from the spec: the window builder, whose code is not among the
    sources.  The window holds the segments [max(0, idx-2)] to
    [min(len-1, idx+2)], the centre recorded relative to the window. *)
Definition build_window (transcript : list TranscriptSegment) (idx : nat) : ContextWindow :=
  let lo := (idx - 2)%nat in
  let hi := Nat.min (List.length transcript - 1) (idx + 2) in
  {| segments := firstn (hi + 1 - lo) (skipn lo transcript);
     center_index := (idx - lo)%nat |}.

(** *** The extraction engine *)

Inductive ValidationError :=
| transport_error
| invalid_json
| not_an_array
| malformed_event (index : nat).

(** A request to the extraction backend: the window, and for the repair
    retry the description of the error of the first attempt. *)
Record ExtractionRequest := {
  req_window : ContextWindow;
  req_repair : option ValidationError
}.

(** What a call of the backend gives: a transport failure, a text that is
    not JSON, or a text that parses to a JSON value. *)
Inductive BackendReply :=
| reply_failure
| reply_text_not_json
| reply_text (parsed : json).

(** Modelled from the spec: the validation of one event of a reply, whose
    code is not among the sources: the six required fields with their types,
    and a confidence within [0, 1]. *)
Definition confidence_in_range (c : number) : bool :=
  js_le (num_of_Z 0) c && js_le c (num_of_Z 1).

Definition valid_event (j : json) : option FailureEvent :=
  match as_FailureEvent j with
  | Some ev => if confidence_in_range (confidence ev) then Some ev else None
  | None => None
  end.

Fixpoint validate_items (index : nat) (items : list json) : ValidationError + list FailureEvent :=
  match items with
  | [] => inr []
  | j :: rest =>
      match valid_event j with
      | None => inl (malformed_event index)
      | Some ev =>
          match validate_items (S index) rest with
          | inl err => inl err
          | inr evs => inr (ev :: evs)
          end
      end
  end.

(** Modelled from the spec: parsing and validation of a backend reply
    (section 4.5, steps 2 and 5), whose code is not among the sources: the
    reply must be a JSON array of objects that have every required field
    with its type and a confidence within [0, 1]. *)
Definition check_reply (r : BackendReply) : ValidationError + list FailureEvent :=
  match r with
  | reply_failure => inl transport_error
  | reply_text_not_json => inl invalid_json
  | reply_text (JArr items) => validate_items 0 items
  | reply_text _ => inl not_an_array
  end.

Section Engine.

(** The extraction backend: an external service with a state of its own. *)
Variable Backend : Type.
Variable extract : Backend -> ExtractionRequest -> BackendReply * Backend.

(** The world of the engine: the backend and the calls made so far. *)
Record World := { backend : Backend; calls : list ExtractionRequest }.

Definition M (A : Type) : Type := World -> A * World.

Definition ret {A : Type} (a : A) : M A := fun w => (a, w).

Definition bind {A B : Type} (m : M A) (k : A -> M B) : M B :=
  fun w => let '(a, w') := m w in k a w'.

Notation "x <- m ;; k" := (bind m (fun x => k))
  (at level 61, m at next level, right associativity).

(** Modelled from the spec: one call of the extraction backend, recorded;
    the code that calls it is not among the sources. *)
Definition call_backend (req : ExtractionRequest) : M BackendReply :=
  fun w =>
    let '(r, b) := extract (backend w) req in
    (r, {| backend := b; calls := (calls w ++ [req])%list |}).

Definition attempt (req : ExtractionRequest) : M (ValidationError + list FailureEvent) :=
  r <- call_backend req ;;
  ret (check_reply r).

(** Modelled from the spec: the extraction protocol for one window (section
    4.5), whose code is not among the sources: one initial call, one repair
    call when the first reply is not valid, and no event when the repair
    reply is not valid either. *)
Definition extract_window (w : ContextWindow) : M (list FailureEvent) :=
  first <- attempt {| req_window := w; req_repair := None |} ;;
  match first with
  | inr events => ret events
  | inl err =>
      second <- attempt {| req_window := w; req_repair := Some err |} ;;
      match second with
      | inr events => ret events
      | inl _ => ret []
      end
  end.

(** Modelled from the spec: the extraction stage, whose code is not among
    the sources: the events of all windows, in the order of the windows. *)
Fixpoint extract_all (ws : list ContextWindow) : M (list FailureEvent) :=
  match ws with
  | [] => ret []
  | w :: rest =>
      events <- extract_window w ;;
      more <- extract_all rest ;;
      ret (events ++ more)%list
  end.

End Engine.

(** *** The merger *)

Section Merger.

(** The similarity test on titles, which the spec leaves to the
    implementation. *)
Variable similar : string -> string -> bool.

(** Modelled from the spec: the duplicate predicate of the merger (section
    4.6), whose code is not among the sources: the timestamps differ by at
    most 30 seconds and the titles are similar. *)
Definition is_duplicate (a b : FailureEvent) : bool :=
  js_le (js_abs (js_sub (timestamp_seconds a) (timestamp_seconds b))) (num_of_Z 30)
    && similar (title a) (title b).

(** Modelled from the spec: an accepted event stands against the candidate
    when they are duplicates and the candidate's confidence is not the
    higher one (section 4.6: the higher confidence wins, the earlier-produced
    one on a tie). *)
Definition stands_against (c a : FailureEvent) : bool :=
  is_duplicate a c && negb (js_lt (confidence a) (confidence c)).

(** Modelled from the spec: one step of the greedy merge (section 4.6),
    whose code is not among the sources.  The candidate is compared with
    every accepted event.  When one of its duplicates stands against it the
    candidate is dropped and the accepted events stay as they are; otherwise
    it is accepted, after the events accepted so far, and each accepted
    event it duplicates (all of a lower confidence) is dropped, so that no
    two accepted events are duplicates (section 3).  Events are dropped or
    passed through, never changed. *)
Definition merge_step (accepted : list FailureEvent) (c : FailureEvent) : list FailureEvent :=
  if existsb (stands_against c) accepted
  then accepted
  else (filter (fun a => negb (is_duplicate a c)) accepted ++ [c])%list.

(** Modelled from the spec: the merger, whose code is not among the
    sources: the candidates are taken in the order they were produced. *)
Definition merge (candidates : list FailureEvent) : list FailureEvent :=
  fold_left merge_step candidates [].

End Merger.

(** *** The final ordering and the orchestrator *)

(** Modelled from the spec: insertion for the stable sort below; an event
    goes before the first event whose timestamp is not smaller. *)
Fixpoint insert_by_time (e : FailureEvent) (sorted : list FailureEvent) : list FailureEvent :=
  match sorted with
  | [] => [e]
  | x :: rest =>
      if js_le (timestamp_seconds e) (timestamp_seconds x)
      then e :: x :: rest
      else x :: insert_by_time e rest
  end.

(** Modelled from the spec: the final ordering (section 3 and 4.7), whose
    code is not among the sources: a stable sort, ascending by
    [timestamp_seconds]. *)
Definition sort_by_time (events : list FailureEvent) : list FailureEvent :=
  fold_right insert_by_time [] events.

Inductive PipelineError := MediaError | TranscriptionError.

Section Orchestrator.

Variable similar : string -> string -> bool.
Variable Backend : Type.
Variable extract : Backend -> ExtractionRequest -> BackendReply * Backend.

(** Modelled from the spec: the success payload for the events the windows
    produced (section 4.7), whose code is not among the sources: merged, then
    sorted. *)
Definition respond (events : list FailureEvent) : AnalyzeResponse :=
  {| failures := sort_by_time (merge similar events) |}.

(** Modelled from the spec: the orchestrator from the transcript onwards
    (section 4.7), whose code is not among the sources.  The stages before
    it are the ones that can fail the request. *)
Definition analyze_transcript (transcript : list TranscriptSegment)
  : M Backend (PipelineError + AnalyzeResponse) :=
  let windows := map (build_window transcript) (detect_candidates transcript) in
  bind Backend (extract_all Backend extract windows)
       (fun events => ret Backend (inr (respond events))).

End Orchestrator.

End Pipeline.
Import Pipeline.

(** * Vocabulary of the properties *)

(** A finite number that is not negative. *)
Definition nonneg_finite (x : number) : bool :=
  match x with
  | S754_zero _ => true
  | S754_finite s _ _ => negb s
  | _ => false
  end.

(** The integer part (rounded down) of a finite number. *)
Definition floorZ (x : number) : Z :=
  match x with
  | S754_finite s m e => Z.shiftl (cond_Zopp s (Zpos m)) e
  | _ => 0
  end.

Definition two_digits (k : Z) : string :=
  String (digit_char (k / 10)) (String (digit_char (k mod 10)) "").

(** A file that passes both checks of [handleFile]. *)
Definition accepted_ext (f : File) : bool :=
  includes ["mp4"; "mov"; "webm"] (file_ext f).

Definition accepted (f : File) : bool :=
  accepted_ext f && negb (js_gt (size f) max_size).

Definition last_step : Z := Z.of_nat (List.length PIPELINE_STEPS) - 1.

(** The invariant of the component: the file it holds passed both checks,
    and the progress step is one of the pipeline steps. *)
Definition Inv (h : Home) : Prop :=
  (forall f, file h = Some f -> accepted f = true)
  /\ 0 <= activeStep h <= last_step.

(** Every request sent is the POST of a form with the one field "file",
    holding a file that passed both checks. *)
Definition request_ok (req : Request) : Prop :=
  exists f, body req = [("file", f)] /\ method req = "POST" /\ accepted f = true.

(** Sample files. *)
Definition clip_mp4 : File :=
  {| name := "Clip.MP4"; size := num_of_Z (10 * 1024 * 1024) |}.

Definition notes_txt : File :=
  {| name := "notes.txt"; size := num_of_Z (600 * 1024 * 1024) |}.

Definition demo_mov : File :=
  {| name := "demo.mov"; size := num_of_Z (600 * 1024 * 1024) |}.

(** A component whose request for "Clip.MP4" is in flight. *)
Definition in_flight : Home :=
  fst (analyze_begin None (handleFile clip_mp4 initial)).

(** Sample responses: a 502 that has no JSON body and, as over HTTP/2, no
    status text; a 400 of the API with its [detail]; a 404 without a JSON
    body; a 500 whose JSON body has no [detail]; and a success with one
    failure event. *)
Definition bad_gateway : Response :=
  {| status := 502; statusText := "";
     json_result := JsonRejected (ErrorObj "Unexpected token '<'") |}.

Definition bad_request : Response :=
  {| status := 400; statusText := "Bad Request";
     json_result := JsonValue (JObj [("detail", JStr "Video exceeds 5 minutes")]) |}.

Definition not_found : Response :=
  {| status := 404; statusText := "Not Found";
     json_result := JsonRejected (ErrorObj "Unexpected end of JSON input") |}.

Definition server_error : Response :=
  {| status := 500; statusText := "Internal Server Error";
     json_result := JsonValue (JObj [("error", JStr "boom")]) |}.

Definition sample_event : FailureEvent :=
  {| timestamp_seconds := num_ratio 125 10;
     title := "Button click does nothing";
     expected := "Clicking submit should save the form";
     actual := "Nothing happens after clicking submit";
     evidence := "At 0:12 the narrator says 'I click submit and nothing happens'";
     confidence := num_ratio 85 100 |}.

Definition sample_success : Response :=
  {| status := 200; statusText := "OK";
     json_result :=
       JsonValue (AnalyzeResponse_json {| failures := [sample_event] |}) |}.



(** [n] is the integer nearest to the finite number [x], the greater one of
    two nearest: [n - 1/2 <= x < n + 1/2], for [x] of value [v * 2^e]. *)
Definition nearest_integer (x : number) (n : Z) : Prop :=
  match x with
  | S754_zero _ => n = 0
  | S754_finite s m e =>
      let v := cond_Zopp s (Zpos m) in
      (2 * n - 1) * 2 ^ Z.max (- e) 0 <= 2 * v * 2 ^ Z.max e 0
      /\ 2 * v * 2 ^ Z.max e 0 < (2 * n + 1) * 2 ^ Z.max (- e) 0
  | _ => False
  end.


(** The 200 response whose body is [{"failures": []}]. *)
Definition empty_success (status_text : string) : Response :=
  {| status := 200; statusText := status_text;
     json_result := JsonValue (JObj [("failures", JArr [])]) |}.

(** Events are ordered by time when the timestamp of the first is at most
    that of the second; NaN is comparable with nothing. *)
Definition is_nan (x : number) : bool :=
  match x with
  | S754_nan => true
  | _ => false
  end.

Definition time_le (a b : FailureEvent) : Prop :=
  js_le (timestamp_seconds a) (timestamp_seconds b) = true.

Definition at_time (t : number) (e : FailureEvent) : bool :=
  SFeqb (timestamp_seconds e) t.

(** Sample events, a sample similarity of titles (both mention "submit"),
    a sample window, and a backend that never returns JSON. *)
Definition event_at (t : number) (name : string) (c : number) : FailureEvent :=
  {| timestamp_seconds := t; title := name; expected := ""; actual := "";
     evidence := ""; confidence := c |}.

Definition submit_10 : FailureEvent :=
  event_at (num_of_Z 10) "Submit button does nothing" (num_ratio 6 10).

Definition submit_12 : FailureEvent :=
  event_at (num_of_Z 12) "Clicking submit has no effect" (num_ratio 9 10).

Definition export_50 : FailureEvent :=
  event_at (num_of_Z 50) "Export crashes" (num_ratio 8 10).




Definition mention_submit (a b : string) : bool :=
  contains "submit" (toLowerCase a) && contains "submit" (toLowerCase b).

Definition sample_window : ContextWindow :=
  {| segments := [ {| seg_start := num_of_Z 10; seg_end := num_of_Z 14;
                      text := "I click submit and nothing happens" |} ];
     center_index := 0 |}.

Definition never_json (b : unit) (req : ExtractionRequest) : BackendReply * unit :=
  (reply_text_not_json, b).

Definition fresh_world : World unit := {| backend := tt; calls := [] |}.

Definition sample_events : list FailureEvent := [export_50; submit_10; submit_12].

(** [l] is [k] with some elements left out, the others in their order. *)
Inductive subsequence {A : Type} : list A -> list A -> Prop :=
| subsequence_nil : subsequence [] []
| subsequence_skip x l k : subsequence l k -> subsequence l (x :: k)
| subsequence_keep x l k : subsequence l k -> subsequence (x :: l) (x :: k).



(** The state variables agree with the state the component is in: a file
    is held from "selected" on, a result only when "done", an error message
    only in "error", the flags of the results block only when "done", and
    the interval runs exactly while "analyzing". *)
Definition Coherent (h : Home) : Prop :=
  match state h with
  | st_idle =>
      file h = None /\ result h = None /\ error h = ""
      /\ copied h = false /\ showJson h = false
      /\ activeStep h = 0 /\ stepInterval h = false
  | st_selected =>
      (exists f, file h = Some f) /\ result h = None /\ error h = ""
      /\ copied h = false /\ showJson h = false
      /\ activeStep h = 0 /\ stepInterval h = false
  | st_analyzing =>
      (exists f, file h = Some f) /\ result h = None /\ error h = ""
      /\ copied h = false /\ showJson h = false
      /\ stepInterval h = true
  | st_done =>
      (exists f, file h = Some f) /\ (exists data, result h = Some data)
      /\ error h = "" /\ stepInterval h = false
  | st_error =>
      result h = None /\ copied h = false /\ showJson h = false
      /\ stepInterval h = false
  end.

(** The events that come from the user. *)
Definition user_event (ev : Event) : bool :=
  match ev with
  | IntervalTick | CopyTimeout | FetchSettled _ => false
  | _ => true
  end.

Definition is_settled (ev : Event) : bool :=
  match ev with
  | FetchSettled _ => true
  | _ => false
  end.

(** The number of conditional blocks a view shows. *)
Definition block {A : Type} (b : option A) : nat :=
  match b with
  | Some _ => 1
  | None => 0
  end.

Definition blocks_shown (v : View) : nat :=
  (block (upload_zone v) + block (file_info v) + block (progress_steps v)
   + block (error_message v) + block (results v))%nat.

Definition is_active (m : StepMark) : bool :=
  match m with
  | step_active => true
  | _ => false
  end.

(** A sample 200 response whose body is [null], and the component that
    received it. *)
Definition null_success : Response :=
  {| status := 200; statusText := "OK"; json_result := JsonValue JNull |}.

Definition after_null : Home :=
  analyze_settle (FetchResolved null_success) in_flight.

(** A sample 200 response whose body is [{}], and the component that
    received it. *)
Definition bare_success : Response :=
  {| status := 200; statusText := "OK"; json_result := JsonValue (JObj []) |}.

Definition after_bare : Home :=
  analyze_settle (FetchResolved bare_success) in_flight.

(** The request that submits a file. *)
Definition submit (env : option string) (f : File) : Request :=
  {| url := API_URL env ++ "/analyze"; method := "POST"; body := [("file", f)] |}.

(** The rank of a confidence class. *)
Definition class_rank (c : string) : Z :=
  if String.eqb c "confidence-high" then 2
  else if String.eqb c "confidence-medium" then 1
  else 0.

(** Tactics: the cases of [analyze_settle], and the cases of the comparisons
    of exponents and mantissas in a comparison of numbers. *)
Ltac settle_cases :=
  unfold analyze_settle;
  repeat match goal with
         | |- context [match ?x with _ => _ end] => destruct x eqn:?
         end.

Ltac compare_cases :=
  repeat match goal with
         | |- context [Z.compare ?a ?b] =>
             destruct (Z.compare_spec a b); subst
         | |- context [Pos.compare_cont Eq ?a ?b] =>
             change (Pos.compare_cont Eq a b) with (Pos.compare a b);
             destruct (Pos.compare_spec a b); subst
         end.

(** * Properties *)

(** ** Numbers *)

Lemma Zpos_iter_xO (m d : positive) :
  Zpos (Pos.iter xO m d) = Z.shiftl (Zpos m) (Zpos d).
Proof.
  unfold Z.shiftl.
  apply (Pos.iter_swap_gen _ _ Zpos xO (Z.mul 2)).
  reflexivity.
Qed.

(** Flooring a canonical form of [m * 2^e], [e] negative. *)
Lemma Math_floor_canon (m : positive) (e : Z) :
  e < 0 -> Math_floor (canon false m e) = of_int false (Z.shiftl (Zpos m) e).
Proof.
  intros He. unfold canon.
  destruct (Z.max 0 (Z.min (prec - Zpos (digits2_pos m)) (e - emin prec emax)))
    as [|d|d] eqn:Hd; cbn [Math_floor cond_Zopp].
  - destruct (0 <=? e) eqn:H0; [apply Z.leb_le in H0; lia | reflexivity].
  - destruct (0 <=? e - Zpos d) eqn:H0; [apply Z.leb_le in H0; lia |].
    rewrite Zpos_iter_xO, Z.shiftl_shiftl by lia.
    do 2 f_equal. lia.
  - destruct (0 <=? e) eqn:H0; [apply Z.leb_le in H0; lia | reflexivity].
Qed.

Lemma sixty_eq : num_of_Z 60 = S754_finite false 8444249301319680 (-47).
Proof. reflexivity. Qed.

Lemma shiftl_neg_div (a n : Z) : n <= 0 -> Z.shiftl a n = a / 2 ^ (- n).
Proof.
  intros Hn. replace n with (- (- n)) at 1 by lia.
  rewrite Z.shiftl_opp_r. apply Z.shiftr_div_pow2. lia.
Qed.

(** The whole seconds within the minute: [Math.floor(seconds % 60)] is the
    integer part of the seconds, modulo 60. *)
Lemma floor_rem_60 (m : positive) (e : Z) :
  Math_floor (js_rem (S754_finite false m e) (num_of_Z 60))
  = of_int false (Z.shiftl (Zpos m) e mod 60).
Proof.
  rewrite sixty_eq. cbn [js_rem].
  set (e0 := Z.min e (-47)).
  assert (He0 : e0 <= -47) by (unfold e0; lia).
  set (X := Z.shiftl (Zpos m) (e - e0)).
  set (Y := Z.shiftl 8444249301319680 (-47 - e0)).
  assert (HY : Y = 2 ^ (- e0) * 60).
  { unfold Y. rewrite Z.shiftl_mul_pow2 by lia.
    replace (- e0) with (47 + (-47 - e0)) by lia.
    rewrite Z.pow_add_r by lia.
    change 8444249301319680 with (60 * 2 ^ 47). ring. }
  assert (Hp : 0 < 2 ^ (- e0)) by (apply Z.pow_pos_nonneg; lia).
  assert (Hk : Z.shiftl (X mod Y) e0 = Z.shiftl (Zpos m) e mod 60).
  { rewrite shiftl_neg_div by lia.
    rewrite HY, Z.rem_mul_r by lia.
    rewrite (Z.mul_comm (2 ^ (- e0))), Z.div_add by lia.
    rewrite Z.div_small by (apply Z.mod_pos_bound; lia).
    rewrite Z.add_0_l. f_equal.
    unfold X. rewrite <- shiftl_neg_div by lia.
    rewrite Z.shiftl_shiftl by (unfold e0; lia).
    f_equal. lia. }
  assert (Hr : 0 <= X mod Y) by (apply Z.mod_pos_bound; lia).
  destruct (X mod Y) as [|r|r] eqn:Er.
  - rewrite <- Hk. rewrite Z.shiftl_0_l. reflexivity.
  - rewrite Math_floor_canon by lia. now rewrite Hk.
  - lia.
Qed.

(** A decidable property checked on every integer below a bound. *)
Lemma all_below (bound : nat) (P : Z -> bool) :
  forallb P (map Z.of_nat (seq 0 bound)) = true ->
  forall k, 0 <= k < Z.of_nat bound -> P k = true.
Proof.
  intros H k Hk. rewrite forallb_forall in H. apply H.
  apply in_map_iff. exists (Z.to_nat k). split; [lia |].
  apply in_seq. lia.
Qed.

(** Below 60 the seconds are one or two digits and are padded to two. *)
Lemma pad_seconds (k : Z) :
  0 <= k < 60 ->
  padStart (Number_toString (of_int false k)) 2 "0" = two_digits k.
Proof.
  intros Hk. apply String.eqb_eq.
  revert k Hk.
  apply (all_below 60
    (fun k => String.eqb (padStart (Number_toString (of_int false k)) 2 "0")
                         (two_digits k))).
  vm_compute. reflexivity.
Qed.

(** Up to five minutes, by tenths of a second, the minutes are the exact
    quotient: the rounding of [seconds / 60] does not show. *)
Lemma formatTimestamp_tenths (n : Z) :
  0 <= n <= 3000 ->
  formatTimestamp (num_ratio n 10)
  = dec (n / 600) ++ ":" ++ two_digits (n / 10 mod 60).
Proof.
  intros Hn. apply String.eqb_eq.
  assert (Hb : 0 <= n < Z.of_nat 3001) by lia.
  revert n Hb Hn.
  refine (fun n Hb _ => all_below 3001
    (fun n => String.eqb (formatTimestamp (num_ratio n 10))
                         (dec (n / 600) ++ ":" ++ two_digits (n / 10 mod 60)))
    _ n Hb).
  vm_compute. reflexivity.
Qed.

(** C10: for every finite number of seconds that is not negative,
    [formatTimestamp] gives the minutes [Math.floor(seconds / 60)] as a
    string, a colon, and the whole seconds within the minute,
    [floor(seconds mod 60)], as exactly two digits, so a value below 60 with
    a leading zero where needed.  The quotient is the binary64 one; up to
    five minutes, by tenths of a second, the minutes are the exact
    [floor(seconds / 60)] in decimal.  12.5 gives "0:12" and 65 gives
    "1:05". *)
Theorem formatTimestamp_minutes_and_two_digit_seconds :
  (forall seconds, nonneg_finite seconds = true ->
     let sec := floorZ seconds mod 60 in
     0 <= sec < 60
     /\ String.length (two_digits sec) = 2%nat
     /\ formatTimestamp seconds
        = Number_toString (Math_floor (js_div seconds (num_of_Z 60)))
            ++ ":" ++ two_digits sec)
  /\ (forall n, 0 <= n <= 3000 ->
        formatTimestamp (num_ratio n 10)
        = dec (n / 600) ++ ":" ++ two_digits (n / 10 mod 60))
  /\ formatTimestamp (num_ratio 125 10) = "0:12"
  /\ formatTimestamp (num_of_Z 65) = "1:05".
Proof.
  split; [| split; [exact formatTimestamp_tenths | split; vm_compute; reflexivity]].
  intros seconds Hs sec.
  assert (Hsec : 0 <= sec < 60) by (apply Z.mod_pos_bound; lia).
  split; [exact Hsec |]. split; [reflexivity |].
  unfold formatTimestamp. do 2 f_equal.
  destruct seconds as [z| | |s m e]; try discriminate.
  - destruct z; reflexivity.
  - destruct s; [discriminate |].
    rewrite floor_rem_60. apply pad_seconds. exact Hsec.
Qed.

(** The theorem at 12.5 seconds. *)
Lemma formatTimestamp_witness :
  nonneg_finite (num_ratio 125 10) = true
  /\ formatTimestamp (num_ratio 125 10)
     = Number_toString (Math_floor (js_div (num_ratio 125 10) (num_of_Z 60)))
         ++ ":" ++ two_digits 12
  /\ 0 <= 2999 <= 3000
  /\ formatTimestamp (num_ratio 2999 10) = "4:59".
Proof.
  split; [reflexivity |].
  split.
  - exact (proj2 (proj2
      (proj1 formatTimestamp_minutes_and_two_digit_seconds
         (num_ratio 125 10) eq_refl))).
  - assert (H : 0 <= 2999 <= 3000) by lia.
    split; [exact H |].
    exact (proj1 (proj2 formatTimestamp_minutes_and_two_digit_seconds) 2999 H).
Defined.

(** ** The page component *)

(** *** What the handlers leave unchanged *)

Lemma analyze_catch_fields (e : thrown) (h : Home) :
  state (analyze_catch e h) = st_error
  /\ file (analyze_catch e h) = file h
  /\ result (analyze_catch e h) = result h
  /\ activeStep (analyze_catch e h) = activeStep h
  /\ stepInterval (analyze_catch e h) = false.
Proof. repeat split. Qed.

Lemma analyze_settle_keeps (r : FetchResult) (h : Home) :
  file (analyze_settle r h) = file h
  /\ activeStep (analyze_settle r h) = activeStep h
  /\ stepInterval (analyze_settle r h) = false.
Proof. settle_cases; repeat split. Qed.

Lemma handleFile_file (f : File) (h : Home) :
  file (handleFile f h) = if accepted f then Some f else file h.
Proof.
  unfold handleFile, accepted, accepted_ext.
  destruct (includes _ _); cbn [negb andb]; [| reflexivity].
  destruct (js_gt _ _); reflexivity.
Qed.

Lemma handleFile_activeStep (f : File) (h : Home) :
  activeStep (handleFile f h) = activeStep h.
Proof.
  unfold handleFile.
  destruct (negb _); [reflexivity |].
  destruct (js_gt _ _); reflexivity.
Qed.

(** *** The extension is read without regard to case *)

Lemma lower_char_dot (c : ascii) :
  Ascii.eqb (lower_char c) "." = Ascii.eqb c ".".
Proof. destruct c as [[] [] [] [] [] [] [] []]; reflexivity. Qed.

Lemma split_toLowerCase (s : string) :
  split "." (toLowerCase s) = map toLowerCase (split "." s).
Proof.
  induction s as [|c s IH]; [reflexivity |].
  cbn [toLowerCase split]. rewrite lower_char_dot, IH.
  destruct (Ascii.eqb c "."); [reflexivity |].
  destruct (split "." s); reflexivity.
Qed.

Lemma pop_map {A B : Type} (g : A -> B) (l : list A) :
  pop (map g l) = option_map g (pop l).
Proof.
  induction l as [|x l IH]; [reflexivity |].
  destruct l as [|y l]; [reflexivity |].
  exact IH.
Qed.

Lemma toLowerCase_idem (s : string) : toLowerCase (toLowerCase s) = toLowerCase s.
Proof.
  induction s as [|c s IH]; [reflexivity |].
  cbn [toLowerCase]. rewrite IH. f_equal.
  destruct c as [[] [] [] [] [] [] [] []]; reflexivity.
Qed.

(** The extension is the last dot-separated part of the lowered name. *)
Lemma file_ext_lowered (f : File) :
  option_map toLowerCase (pop (split "." (name f)))
  = pop (split "." (toLowerCase (name f))).
Proof. now rewrite split_toLowerCase, pop_map. Qed.

(** A name without a dot is its own extension. *)
Example file_ext_without_dot :
  file_ext {| name := "MOV"; size := num_of_Z 1 |} = "mov"
  /\ file_ext {| name := "archive.tar.WebM"; size := num_of_Z 1 |} = "webm"
  /\ file_ext {| name := "clip.mp4."; size := num_of_Z 1 |} = "".
Proof. repeat split. Qed.

Lemma accepted_ext_case (f g : File) :
  toLowerCase (name f) = toLowerCase (name g) -> accepted_ext f = accepted_ext g.
Proof.
  intros H. unfold accepted_ext, file_ext.
  now rewrite !file_ext_lowered, H.
Qed.

Lemma handleFile_rejects_ext (f : File) (h : Home) :
  accepted_ext f = false ->
  handleFile f h = setState st_error (setError unsupported_format h).
Proof.
  unfold accepted_ext, handleFile. intros H. now rewrite H.
Qed.

Lemma handleFile_rejects_size (f : File) (h : Home) :
  accepted_ext f = true -> js_gt (size f) max_size = true ->
  handleFile f h = setState st_error (setError (file_too_large f) h).
Proof.
  unfold accepted_ext, handleFile. intros H1 H2. now rewrite H1, H2.
Qed.

Lemma handleFile_accepts (f : File) (h : Home) :
  accepted_ext f = true -> js_gt (size f) max_size = false ->
  handleFile f h
  = setResult None (setError "" (setState st_selected (setFile (Some f) h))).
Proof.
  unfold accepted_ext, handleFile. intros H1 H2. now rewrite H1, H2.
Qed.

(** The results block is shown in the "done" state, for a truthy result
    that renders. *)
Lemma results_shown_spec (h : Home) :
  results_shown h
  = AppState_eqb (state h) st_done
    && match result h with
       | Some data =>
           truthy (Some data)
           && match failures_shown data with
              | Some _ => true
              | None => false
              end
       | None => false
       end.
Proof.
  unfold results_shown, render, results_block.
  destruct (state h); cbn [AppState_eqb results andb]; try reflexivity.
  destruct (result h) as [data|]; [| reflexivity].
  destruct (truthy (Some data)); [| reflexivity].
  destruct (failures_shown data); reflexivity.
Qed.

Lemma results_shown_done (h : Home) :
  results_shown h = true -> state h = st_done /\ truthy (result h) = true.
Proof.
  rewrite results_shown_spec.
  destruct (state h); cbn [AppState_eqb andb]; try discriminate.
  destruct (result h) as [data|]; [| discriminate].
  destruct (truthy (Some data)); [now split | discriminate].
Qed.

Lemma results_shown_not_done (h : Home) :
  state h <> st_done -> results_shown h = false.
Proof.
  intros Hn. destruct (results_shown h) eqn:H; [| reflexivity].
  now destruct (results_shown_done h H).
Qed.

Section Runs.

Variable NEXT_PUBLIC_API_URL : option string.

#[local] Abbreviation step := (step NEXT_PUBLIC_API_URL).
#[local] Abbreviation run := (run NEXT_PUBLIC_API_URL).
#[local] Abbreviation analyze_begin := (analyze_begin NEXT_PUBLIC_API_URL).

Lemma Inv_initial : Inv initial.
Proof. split; [discriminate | cbv; split; discriminate]. Qed.

Lemma analyze_begin_sends (h : Home) (f : File) :
  file h = Some f ->
  snd (analyze_begin h)
  = [{| url := API_URL NEXT_PUBLIC_API_URL ++ "/analyze";
        method := "POST"; body := [("file", f)] |}]
  /\ file (fst (analyze_begin h)) = Some f
  /\ state (fst (analyze_begin h)) = st_analyzing
  /\ activeStep (fst (analyze_begin h)) = 0
  /\ stepInterval (fst (analyze_begin h)) = true.
Proof.
  intros Hf. unfold Page.analyze_begin. rewrite Hf. cbn [fst snd].
  repeat split. exact Hf.
Qed.

Lemma tick_activeStep (h : Home) :
  activeStep (tick h) = Z.min (activeStep h + 1) last_step.
Proof. reflexivity. Qed.

Lemma step_Inv (h : Home) (ev : Event) :
  Inv h ->
  Inv (fst (step h ev)) /\ Forall request_ok (snd (step h ev)).
Proof.
  intros [Hfile Hstep].
  assert (Hlast : last_step = 4) by reflexivity.
  destruct ev; unfold Page.step; cbn [fst snd].
  - destruct (AppState_eqb _ _); [| now repeat split].
    split; [| constructor]. unfold onDrop. destruct dropped as [f|].
    + split.
      * intros g. rewrite handleFile_file. cbn [file setDragover].
        destruct (accepted f) eqn:Ha; [intros [= <-]; exact Ha | apply Hfile].
      * rewrite handleFile_activeStep. exact Hstep.
    + split; assumption.
  - destruct (AppState_eqb _ _); now repeat split.
  - destruct (AppState_eqb _ _); now repeat split.
  - destruct (AppState_eqb _ _); [| now repeat split].
    split; [| constructor]. unfold onFileInput. destruct chosen as [f|].
    + split.
      * intros g. rewrite handleFile_file.
        destruct (accepted f) eqn:Ha; [intros [= <-]; exact Ha | apply Hfile].
      * rewrite handleFile_activeStep. exact Hstep.
    + split; assumption.
  - destruct (AppState_eqb _ _ && _); [| now repeat split].
    destruct (file h) as [f|] eqn:Hf.
    + destruct (analyze_begin_sends h f Hf) as (Hs & Hf' & _ & Ha & _).
      split; [split |].
      * intros g. rewrite Hf'. intros [= <-]. now apply Hfile.
      * rewrite Ha, Hlast. lia.
      * rewrite Hs. constructor; [| constructor].
        exists f. repeat split. now apply Hfile.
    + unfold Page.analyze_begin. rewrite Hf. cbn [fst snd].
      split; [split; [rewrite Hf; discriminate | assumption] | constructor].
  - destruct (_ || _); [| now repeat split].
    split; [split |]; [discriminate | cbn; lia | constructor].
  - destruct (results_shown h); [| now repeat split].
    unfold copyJson. destruct (truthy _); now repeat split.
  - destruct (results_shown h); now repeat split.
  - destruct (stepInterval h); [| now repeat split].
    split; [split |]; [exact Hfile | | constructor].
    rewrite tick_activeStep. lia.
  - now repeat split.
  - destruct (stepInterval h); [| now repeat split].
    destruct (analyze_settle_keeps r h) as (Hf & Ha & _).
    split; [split |]; [| | constructor].
    + intros g. rewrite Hf. apply Hfile.
    + rewrite Ha. exact Hstep.
Qed.

Lemma run_Inv (evs : list Event) (h : Home) :
  Inv h ->
  Inv (fst (run h evs)) /\ Forall request_ok (snd (run h evs)).
Proof.
  revert h. induction evs as [|ev evs IH]; intros h Hh; cbn [Page.run].
  - split; [assumption | constructor].
  - destruct (step_Inv h ev Hh) as [H1 Hs1].
    destruct (step h ev) as [h1 sent1]. cbn [fst snd] in *.
    destruct (IH h1 H1) as [H2 Hs2].
    destruct (run h1 evs) as [h2 sent2]. cbn [fst snd] in *.
    split; [assumption |]. apply Forall_app. now split.
Qed.

(** While the request is in flight, [n] ticks of the interval bring the
    progress step from 0 to [min n 4]. *)
Lemma ticks_from (n : nat) (h : Home) :
  stepInterval h = true ->
  0 <= activeStep h <= last_step ->
  activeStep (fst (run h (repeat IntervalTick n)))
  = Z.min (activeStep h + Z.of_nat n) last_step.
Proof.
  revert h. induction n as [|n IH]; intros h Hi Ha.
  - cbn [repeat Page.run fst]. lia.
  - cbn [repeat Page.run]. unfold Page.step at 1. rewrite Hi.
    specialize (IH (tick h) Hi).
    destruct (run (tick h) (repeat IntervalTick n)) as [h2 s2].
    cbn [fst] in *. rewrite IH.
    + rewrite tick_activeStep. lia.
    + rewrite tick_activeStep. lia.
Qed.

(** C9: the progress step stays within the pipeline steps, [0] to
    [PIPELINE_STEPS.length - 1 = 4]: it is there after any sequence of
    events; [analyze] starts it at 0; a tick of the interval replaces it by
    [min (prev + 1) 4]; and after [n] ticks of one request it is [min n 4],
    however many ticks there are. *)
Theorem activeStep_within_pipeline_steps :
  last_step = 4
  /\ (forall evs, 0 <= activeStep (fst (run initial evs)) <= last_step)
  /\ (forall h f, file h = Some f -> activeStep (fst (analyze_begin h)) = 0)
  /\ (forall h, activeStep (tick h) = Z.min (activeStep h + 1) last_step)
  /\ (forall h f n, file h = Some f ->
        activeStep (fst (run (fst (analyze_begin h)) (repeat IntervalTick n)))
        = Z.min (Z.of_nat n) last_step).
Proof.
  split; [reflexivity |].
  split; [intros evs; apply (run_Inv evs initial Inv_initial) |].
  split; [intros h f Hf; apply (analyze_begin_sends h f Hf) |].
  split; [exact tick_activeStep |].
  intros h f n Hf.
  destruct (analyze_begin_sends h f Hf) as (_ & _ & _ & Ha & Hi).
  rewrite ticks_from; [rewrite Ha; reflexivity | exact Hi |].
  rewrite Ha. cbv. split; discriminate.
Qed.

(** Every request of every run carries exactly one form field, "file",
    whose file passed both checks. *)
Lemma run_requests (evs : list Event) (req : Request) :
  In req (snd (run initial evs)) -> request_ok req.
Proof.
  intros Hin.
  destruct (run_Inv evs initial Inv_initial) as [_ Hall].
  rewrite Forall_forall in Hall. now apply Hall.
Qed.

(** C1: a file is accepted only when the last dot-separated part of its
    name (its extension, the whole name when it has no dot), lowered, is
    mp4, mov or webm.  For any other extension [handleFile] sets the state
    to "error" with the 'Unsupported format' message, keeps the file out of
    the state and sends nothing, and no request sent by any run carries such
    a file.  An accepted file is submitted by [analyze] as one POST of a form
    with the single field "file". *)
Theorem only_accepted_extensions_are_submitted :
  (forall f, accepted_ext f = true <->
     (file_ext f = "mp4" \/ file_ext f = "mov" \/ file_ext f = "webm"))
  /\ (forall f g, toLowerCase (name f) = toLowerCase (name g) ->
        accepted_ext f = accepted_ext g)
  /\ (forall f h, accepted_ext f = false ->
        state (handleFile f h) = st_error
        /\ error (handleFile f h)
           = "Unsupported format. Please upload MP4, MOV, or WebM."
        /\ file (handleFile f h) = file h
        /\ snd (step h (FileInput (Some f))) = []
        /\ snd (step h (Drop (Some f))) = [])
  /\ (forall evs req, In req (snd (run initial evs)) ->
        exists f, body req = [("file", f)] /\ accepted_ext f = true)
  /\ (forall f h, accepted_ext f = true -> js_gt (size f) max_size = false ->
        state (handleFile f h) = st_selected
        /\ file (handleFile f h) = Some f
        /\ snd (analyze_begin (handleFile f h))
           = [{| url := API_URL NEXT_PUBLIC_API_URL ++ "/analyze";
                 method := "POST"; body := [("file", f)] |}]).
Proof.
  split.
  { intros f. unfold accepted_ext, includes. cbn [existsb].
    rewrite !orb_true_iff, !String.eqb_eq. intuition discriminate. }
  split; [exact accepted_ext_case |].
  split.
  { intros f h Hf. rewrite (handleFile_rejects_ext f h Hf).
    repeat split. }
  split.
  { intros evs req Hin.
    destruct (run_requests evs req Hin) as (f & Hb & _ & Ha).
    exists f. split; [exact Hb |].
    unfold accepted in Ha. now apply andb_true_iff in Ha. }
  intros f h Hext Hsize. rewrite (handleFile_accepts f h Hext Hsize).
  split; [reflexivity | split; [reflexivity |]].
  now apply analyze_begin_sends.
Qed.

(** C8, as amended: a file with an accepted extension and a size above
    [500 * 1024 * 1024] bytes gets the 'File too large' error, and one with
    another extension the 'Unsupported format' error, the extension being
    checked first; whatever its extension, a file of that size puts the
    component in the "error" state and is not stored, and no request sent by
    any run carries a file above the maximum. *)
Theorem oversized_file_is_rejected :
  max_size = num_of_Z (500 * 1024 * 1024)
  /\ (forall f h, accepted_ext f = true -> js_gt (size f) max_size = true ->
        state (handleFile f h) = st_error
        /\ error (handleFile f h)
           = "File too large (" ++ formatFileSize (size f) ++ "). Max is 500 MB."
        /\ file (handleFile f h) = file h)
  /\ (forall f h, accepted_ext f = false -> js_gt (size f) max_size = true ->
        error (handleFile f h)
        = "Unsupported format. Please upload MP4, MOV, or WebM.")
  /\ (forall f h, js_gt (size f) max_size = true ->
        state (handleFile f h) = st_error
        /\ file (handleFile f h) = file h)
  /\ (forall evs req, In req (snd (run initial evs)) ->
        exists f, body req = [("file", f)] /\ js_gt (size f) max_size = false).
Proof.
  split; [reflexivity |].
  split.
  { intros f h Hext Hsize. rewrite (handleFile_rejects_size f h Hext Hsize).
    repeat split. }
  split.
  { intros f h Hext _. now rewrite (handleFile_rejects_ext f h Hext). }
  split.
  { intros f h Hsize. destruct (accepted_ext f) eqn:Hext.
    - rewrite (handleFile_rejects_size f h Hext Hsize). now split.
    - rewrite (handleFile_rejects_ext f h Hext). now split. }
  intros evs req Hin.
  destruct (run_requests evs req Hin) as (f & Hb & _ & Ha).
  exists f. split; [exact Hb |].
  unfold accepted in Ha. apply andb_true_iff in Ha.
  now apply negb_true_iff.
Qed.

End Runs.

(** C8 as stated fails: "notes.txt" of 600 MiB is above the maximum, and
    the error it gets is the one of the extension check, which comes
    first. *)
Lemma oversized_file_with_other_extension :
  js_gt (size notes_txt) max_size = true
  /\ error (handleFile notes_txt initial)
     = "Unsupported format. Please upload MP4, MOV, or WebM."
  /\ String.prefix "File too large" (error (handleFile notes_txt initial)) = false.
Proof. repeat split. Qed.

Lemma oversized_file_witness :
  accepted_ext demo_mov = true
  /\ js_gt (size demo_mov) max_size = true
  /\ error (handleFile demo_mov initial)
     = "File too large (600.0 MB). Max is 500 MB."
  /\ accepted_ext notes_txt = false
  /\ js_gt (size notes_txt) max_size = true
  /\ error (handleFile notes_txt initial)
     = "Unsupported format. Please upload MP4, MOV, or WebM."
  /\ state (handleFile notes_txt initial) = st_error
  /\ (In {| url := "http://localhost:8000/analyze"; method := "POST";
            body := [("file", clip_mp4)] |}
         (snd (run None initial [FileInput (Some clip_mp4); ClickAnalyze]))
      /\ exists f, [("file", clip_mp4)] = [("file", f)]
                   /\ js_gt (size f) max_size = false).
Proof.
  pose proof (oversized_file_is_rejected None) as (_ & Hlarge & Hother & Hany & Hrun).
  split; [reflexivity |]. split; [reflexivity |].
  split; [exact (proj1 (proj2 (Hlarge demo_mov initial eq_refl eq_refl))) |].
  split; [reflexivity |]. split; [reflexivity |].
  split; [exact (Hother notes_txt initial eq_refl eq_refl) |].
  split; [exact (proj1 (Hany notes_txt initial eq_refl)) |].
  assert (Hin : In {| url := "http://localhost:8000/analyze"; method := "POST";
                      body := [("file", clip_mp4)] |}
                   (snd (run None initial [FileInput (Some clip_mp4); ClickAnalyze])))
    by (left; reflexivity).
  split; [exact Hin |].
  exact (Hrun _ _ Hin).
Defined.

Lemma accepted_extension_witness :
  accepted_ext clip_mp4 = true
  /\ js_gt (size clip_mp4) max_size = false
  /\ snd (analyze_begin None (handleFile clip_mp4 initial))
     = [{| url := "http://localhost:8000/analyze"; method := "POST";
           body := [("file", clip_mp4)] |}]
  /\ toLowerCase (name clip_mp4) = toLowerCase "CLIP.mp4"
  /\ accepted_ext clip_mp4 = accepted_ext {| name := "CLIP.mp4"; size := num_of_Z 1 |}
  /\ accepted_ext notes_txt = false
  /\ state (handleFile notes_txt initial) = st_error
  /\ (In {| url := "http://localhost:8000/analyze"; method := "POST";
            body := [("file", clip_mp4)] |}
         (snd (run None initial [FileInput (Some clip_mp4); ClickAnalyze]))
      /\ exists f, [("file", clip_mp4)] = [("file", f)] /\ accepted_ext f = true).
Proof.
  pose proof (only_accepted_extensions_are_submitted None)
    as (_ & Hcase & Hreject & Hrun & Hsubmit).
  split; [reflexivity |]. split; [reflexivity |].
  split; [exact (proj2 (proj2 (Hsubmit clip_mp4 initial eq_refl eq_refl))) |].
  split; [reflexivity |].
  split; [exact (Hcase clip_mp4 {| name := "CLIP.mp4"; size := num_of_Z 1 |} eq_refl) |].
  split; [reflexivity |].
  split; [exact (proj1 (Hreject notes_txt initial eq_refl)) |].
  assert (Hin : In {| url := "http://localhost:8000/analyze"; method := "POST";
                      body := [("file", clip_mp4)] |}
                   (snd (run None initial [FileInput (Some clip_mp4); ClickAnalyze])))
    by (left; reflexivity).
  split; [exact Hin |].
  exact (Hrun _ _ Hin).
Defined.

Lemma activeStep_witness :
  file (handleFile clip_mp4 initial) = Some clip_mp4
  /\ activeStep (fst (analyze_begin None (handleFile clip_mp4 initial))) = 0
  /\ activeStep (fst (run None
        (fst (analyze_begin None (handleFile clip_mp4 initial)))
        (repeat IntervalTick 7))) = 4.
Proof.
  pose proof (activeStep_within_pipeline_steps None) as (_ & _ & Hstart & _ & Hticks).
  split; [reflexivity |].
  split; [exact (Hstart (handleFile clip_mp4 initial) clip_mp4 eq_refl) |].
  exact (Hticks (handleFile clip_mp4 initial) clip_mp4 7%nat eq_refl).
Defined.

(** *** The response to the analyze request *)




(** A value of the declared type is shown as it is: its numbers need no
    conversion, and its strings are their own text. *)
Lemma event_shown_typed (item : json) (f : FailureEvent) :
  as_FailureEvent item = Some f -> event_shown item = Some f.
Proof.
  unfold as_FailureEvent, event_shown.
  destruct item as [| | | | |fields]; try discriminate.
  cbn [get_prop].
  destruct (lookup "timestamp_seconds" fields) as [[| |t| | |]|]; try discriminate.
  destruct (lookup "title" fields) as [[| | |ti| |]|]; try discriminate.
  destruct (lookup "expected" fields) as [[| | |ex| |]|]; try discriminate.
  destruct (lookup "actual" fields) as [[| | |ac| |]|]; try discriminate.
  destruct (lookup "evidence" fields) as [[| | |ev| |]|]; try discriminate.
  destruct (lookup "confidence" fields) as [[| |c| | |]|]; try discriminate.
  cbn. intros H. exact H.
Qed.

Lemma traverse_event_shown_typed (items : list json) (l : list FailureEvent) :
  traverse as_FailureEvent items = Some l -> traverse event_shown items = Some l.
Proof.
  revert l. induction items as [|x items IH]; intros l; cbn [traverse].
  - intros H. exact H.
  - destruct (as_FailureEvent x) as [f|] eqn:Hx; [| discriminate].
    destruct (traverse as_FailureEvent items) as [fs|]; [| discriminate].
    intros H. rewrite (event_shown_typed _ _ Hx), (IH fs eq_refl). exact H.
Qed.

Lemma failures_shown_typed (data : json) (r : AnalyzeResponse) :
  as_AnalyzeResponse data = Some r -> failures_shown data = Some (failures r).
Proof.
  unfold as_AnalyzeResponse, failures_shown.
  destruct data as [| | | | |fields]; try discriminate.
  cbn [get_prop].
  destruct (lookup "failures" fields) as [[| | | |items|]|]; try discriminate.
  destruct (traverse as_FailureEvent items) as [l|] eqn:Hl; [| discriminate].
  cbn [option_map]. intros [= <-].
  now rewrite (traverse_event_shown_typed _ _ Hl).
Qed.

Lemma results_block_typed (data : json) (r : AnalyzeResponse) (h : Home) :
  as_AnalyzeResponse data = Some r ->
  results_block data h = Some (results_of r h).
Proof.
  intros H. unfold results_block. rewrite (failures_shown_typed _ _ H).
  now destruct r.
Qed.

(** Outside the "done" state no results block is rendered; in the "error"
    state the error block shows the message. *)
Lemma render_error (h : Home) :
  state h = st_error ->
  exists v, render h = Some v
            /\ results v = None
            /\ error_message v = Some (error h).
Proof.
  intros Hs. unfold render. rewrite Hs. cbn [AppState_eqb andb].
  eexists. split; [reflexivity |]. split; reflexivity.
Qed.

(** In the "done" state with a result of the declared type the results
    block is rendered from it, and no error block. *)
Lemma render_done (h : Home) (data : json) (r : AnalyzeResponse) :
  state h = st_done ->
  result h = Some data ->
  as_AnalyzeResponse data = Some r ->
  exists v, render h = Some v
            /\ results v = Some (results_of r h)
            /\ error_message v = None.
Proof.
  intros Hs Hr Hd. unfold render. rewrite Hs, Hr, (results_block_typed _ _ h Hd).
  destruct data; try discriminate.
  cbn [AppState_eqb truthy option_map].
  eexists. split; [reflexivity |]. split; reflexivity.
Qed.

Lemma settle_ok (res : Response) (data : json) (h : Home) :
  ok res = true -> json_result res = JsonValue data ->
  analyze_settle (FetchResolved res) h
  = setState st_done (setResult (Some data) (setStepInterval false h)).
Proof. intros Hok Hj. unfold analyze_settle. now rewrite Hok, Hj. Qed.

Lemma settle_not_ok_state (res : Response) (h : Home) :
  ok res = false ->
  state (analyze_settle (FetchResolved res) h) = st_error
  /\ result (analyze_settle (FetchResolved res) h) = result h.
Proof.
  intros Hok. unfold analyze_settle. rewrite Hok. cbn [negb].
  repeat match goal with
         | |- context [match ?x with _ => _ end] => destruct x eqn:?
         end; split; reflexivity.
Qed.

(** The message of a non-ok response, by the cases of its body. *)
Lemma settle_not_ok_message (res : Response) (h : Home) :
  ok res = false ->
  let h' := analyze_settle (FetchResolved res) h in
  (forall data d, json_result res = JsonValue data ->
     get_prop data "detail" = Normal (Some (JStr d)) -> d <> "" -> error h' = d)
  /\ (forall data detail, json_result res = JsonValue data ->
        get_prop data "detail" = Normal detail -> truthy detail = false ->
        error h' = "HTTP " ++ dec (status res))
  /\ (forall e, json_result res = JsonRejected e ->
        error h' = if String.eqb (statusText res) ""
                   then "HTTP " ++ dec (status res)
                   else statusText res).
Proof.
  intros Hok h'. subst h'. unfold analyze_settle. rewrite Hok. cbn [negb].
  split; [| split].
  - intros data d Hj Hd Hne. rewrite Hj, Hd.
    cbn [truthy]. apply String.eqb_neq in Hne. rewrite Hne. reflexivity.
  - intros data detail Hj Hd Hf. rewrite Hj, Hd, Hf. reflexivity.
  - intros e Hj. rewrite Hj. cbn [get_prop lookup String.eqb].
    cbn. destruct (String.eqb (statusText res) ""); reflexivity.
Qed.

(** C2, as amended: a response with a non-ok status always puts the
    component in the "error" state, without a result and with the error
    block rendered in place of any results.  The message is the [detail] of
    the JSON error body when that is a non-empty string, and the status
    text when the body is not JSON and the status text is not empty; when
    the status text is empty, or the [detail] read from the JSON body is
    missing or falsy, the message is "HTTP " followed by the status. *)
Theorem non_ok_response_is_an_error (res : Response) (h : Home) :
  ok res = false ->
  let h' := analyze_settle (FetchResolved res) h in
  state h' = st_error
  /\ state h' <> st_done
  /\ result h' = result h
  /\ (exists v, render h' = Some v
                /\ results v = None
                /\ error_message v = Some (error h'))
  /\ (forall data d, json_result res = JsonValue data ->
        get_prop data "detail" = Normal (Some (JStr d)) -> d <> "" ->
        error h' = d)
  /\ (forall e, json_result res = JsonRejected e -> statusText res <> "" ->
        error h' = statusText res)
  /\ (forall e, json_result res = JsonRejected e -> statusText res = "" ->
        error h' = "HTTP " ++ dec (status res))
  /\ (forall data detail, json_result res = JsonValue data ->
        get_prop data "detail" = Normal detail -> truthy detail = false ->
        error h' = "HTTP " ++ dec (status res)).
Proof.
  intros Hok h'.
  destruct (settle_not_ok_state res h Hok) as [Hs Hr].
  destruct (settle_not_ok_message res h Hok) as (Hd & Hf & Ht).
  fold h' in Hs, Hr, Hd, Hf, Ht.
  split; [exact Hs |].
  split; [rewrite Hs; discriminate |].
  split; [exact Hr |].
  split; [now apply render_error |].
  split; [exact Hd |].
  split.
  { intros e Hj Hne. rewrite (Ht e Hj).
    apply String.eqb_neq in Hne. now rewrite Hne. }
  split; [| exact Hf].
  intros e Hj He. rewrite (Ht e Hj), He. reflexivity.
Qed.

(** C2 as stated fails: the body of this 502 is not JSON, and the message
    shown is "HTTP 502", not its (empty) status text. *)
Lemma empty_status_text_is_not_shown :
  ok bad_gateway = false
  /\ error (analyze_settle (FetchResolved bad_gateway) in_flight) = "HTTP 502"
  /\ error (analyze_settle (FetchResolved bad_gateway) in_flight)
     <> statusText bad_gateway.
Proof. split; [reflexivity | split; [reflexivity | discriminate]]. Qed.

Lemma non_ok_response_witness :
  ok bad_request = false
  /\ state (analyze_settle (FetchResolved bad_request) in_flight) = st_error
  /\ error (analyze_settle (FetchResolved bad_request) in_flight)
     = "Video exceeds 5 minutes"
  /\ ok bad_gateway = false
  /\ error (analyze_settle (FetchResolved bad_gateway) in_flight) = "HTTP 502"
  /\ ok not_found = false
  /\ error (analyze_settle (FetchResolved not_found) in_flight) = "Not Found"
  /\ ok server_error = false
  /\ error (analyze_settle (FetchResolved server_error) in_flight) = "HTTP 500".
Proof.
  split; [reflexivity |].
  pose proof (non_ok_response_is_an_error bad_request in_flight eq_refl)
    as (Hstate & _ & _ & _ & Hdetail & _).
  split; [exact Hstate |].
  split; [refine (Hdetail _ _ eq_refl eq_refl _); discriminate |].
  split; [reflexivity |].
  pose proof (non_ok_response_is_an_error bad_gateway in_flight eq_refl)
    as (_ & _ & _ & _ & _ & _ & Hempty & _).
  split; [exact (Hempty _ eq_refl eq_refl) |].
  split; [reflexivity |].
  pose proof (non_ok_response_is_an_error not_found in_flight eq_refl)
    as (_ & _ & _ & _ & _ & Htext & _).
  split; [refine (Htext _ eq_refl _); discriminate |].
  split; [reflexivity |].
  pose proof (non_ok_response_is_an_error server_error in_flight eq_refl)
    as (_ & _ & _ & _ & _ & _ & _ & Hmissing).
  exact (Hmissing _ _ eq_refl eq_refl eq_refl).
Defined.

(** C6: the 200 response with the body [{"failures": []}] is a success:
    the component reaches the "done" state with that result, no error block
    is rendered, the count reads "0 failures detected", the no-failures
    notice is rendered and there is no failure card. *)
Theorem empty_failures_is_success (status_text : string) (h : Home) :
  let h' := analyze_settle (FetchResolved (empty_success status_text)) h in
  ok (empty_success status_text) = true
  /\ state h' = st_done
  /\ error h' = error h
  /\ (let '(home, sent) :=
         run None initial [ FileInput (Some clip_mp4); ClickAnalyze;
                            FetchSettled (FetchResolved (empty_success status_text)) ] in
       state home = st_done /\ error home = "" /\ List.length sent = 1%nat)
  /\ exists v R,
       render h' = Some v
       /\ error_message v = None
       /\ results v = Some R
       /\ results_count R = "0 failures detected"
       /\ no_failures R = true
       /\ failure_list R = [].
Proof.
  intros h'. subst h'.
  rewrite (settle_ok (empty_success status_text)
             (JObj [("failures", JArr [])]) h eq_refl eq_refl).
  split; [reflexivity |]. split; [reflexivity |]. split; [reflexivity |].
  split; [repeat split |].
  destruct (render_done
              (setState st_done
                 (setResult (Some (AnalyzeResponse_json {| failures := [] |}))
                    (setStepInterval false h)))
              _ {| failures := [] |} eq_refl eq_refl eq_refl)
    as (v & Hv & HR & He).
  exists v. eexists. split; [exact Hv |]. split; [exact He |].
  split; [exact HR |]. repeat split.
Qed.



Lemma nearest_integer_unique (x : number) (n n' : Z) :
  nearest_integer x n -> nearest_integer x n' -> n = n'.
Proof.
  destruct x as [z| | |s m e]; cbn [nearest_integer]; try tauto; [lia |].
  set (D := 2 ^ Z.max (- e) 0). set (V := 2 * cond_Zopp s (Zpos m) * 2 ^ Z.max e 0).
  assert (HD : 0 < D) by (apply Z.pow_pos_nonneg; lia).
  intros [H1 H2] [H3 H4]. nia.
Qed.






















(** ** The analysis pipeline *)

(** *** The extraction engine *)

Section EngineProperties.

Variable Backend : Type.
Variable extract : Backend -> ExtractionRequest -> BackendReply * Backend.

#[local] Abbreviation extract_window := (extract_window Backend extract).
#[local] Abbreviation extract_all := (extract_all Backend extract).

(** A window costs one call when the first reply is valid, two otherwise. *)
Lemma extract_window_calls (w : ContextWindow) (world : World Backend) :
  let first := {| req_window := w; req_repair := None |} in
  let world' := snd (extract_window w world) in
  match check_reply (fst (extract (backend Backend world) first)) with
  | inr events =>
      calls Backend world' = (calls Backend world ++ [first])%list
      /\ fst (extract_window w world) = events
  | inl err =>
      calls Backend world'
      = (calls Backend world
           ++ [first; {| req_window := w; req_repair := Some err |}])%list
  end.
Proof.
  cbn zeta. unfold Pipeline.extract_window, attempt, call_backend, bind, ret.
  cbn [backend calls].
  destruct (extract (backend Backend world) _) as [r1 b1]. cbn [fst snd].
  destruct (check_reply r1) as [err|events]; [| split; reflexivity].
  cbn [backend calls].
  destruct (extract b1 _) as [r2 b2].
  destruct (check_reply r2); cbn [snd calls]; now rewrite <- app_assoc.
Qed.

(** The extraction stage gives a list of events for every list of windows:
    its outcome has no failure case. *)
Lemma analyze_transcript_succeeds (similar : string -> string -> bool)
  (transcript : list TranscriptSegment) (world : World Backend) :
  exists events,
    fst (analyze_transcript similar Backend extract transcript world)
    = inr (respond similar events).
Proof.
  unfold analyze_transcript, bind, ret.
  destruct (Pipeline.extract_all _ _ _ world) as [events world'].
  now exists events.
Qed.

(** C3: when the replies to the initial call and to the repair call for a
    window are both invalid, the engine has made exactly these two calls for
    it, the window gives no event, and the pipeline still answers with a
    success payload. *)
Theorem two_invalid_replies_two_calls_no_event
  (w : ContextWindow) (world : World Backend)
  (r1 r2 : BackendReply) (b1 b2 : Backend) (err1 err2 : ValidationError) :
  let first := {| req_window := w; req_repair := None |} in
  let repair := {| req_window := w; req_repair := Some err1 |} in
  extract (backend Backend world) first = (r1, b1) ->
  check_reply r1 = inl err1 ->
  extract b1 repair = (r2, b2) ->
  check_reply r2 = inl err2 ->
  fst (extract_window w world) = []
  /\ calls Backend (snd (extract_window w world))
     = (calls Backend world ++ [first; repair])%list
  /\ List.length (calls Backend (snd (extract_window w world)))
     = (List.length (calls Backend world) + 2)%nat
  /\ backend Backend (snd (extract_window w world)) = b2
  /\ forall similar transcript world0, exists events,
       fst (analyze_transcript similar Backend extract transcript world0)
       = inr (respond similar events).
Proof.
  intros first repair H1 Hc1 H2 Hc2.
  assert (Hrun : extract_window w world
                 = ([], {| backend := b2;
                           calls := (calls Backend world ++ [first; repair])%list |})).
  { unfold Pipeline.extract_window, attempt, call_backend, bind, ret.
    fold first. rewrite H1, Hc1. cbn [backend calls]. fold repair.
    rewrite H2, Hc2. now rewrite <- app_assoc. }
  rewrite Hrun. cbn [fst snd calls backend].
  split; [reflexivity |]. split; [reflexivity |].
  split; [rewrite length_app; reflexivity |].
  split; [reflexivity |].
  intros similar transcript world0. apply analyze_transcript_succeeds.
Qed.

End EngineProperties.

Lemma two_invalid_replies_witness :
  fst (Pipeline.extract_window unit never_json sample_window fresh_world) = []
  /\ List.length
       (calls unit
          (snd (Pipeline.extract_window unit never_json sample_window fresh_world)))
     = 2%nat.
Proof.
  pose proof (two_invalid_replies_two_calls_no_event unit never_json
                sample_window fresh_world reply_text_not_json reply_text_not_json
                tt tt invalid_json invalid_json
                eq_refl eq_refl eq_refl eq_refl) as H.
  split; [exact (proj1 H) | exact (proj1 (proj2 (proj2 H)))].
Defined.

(** *** The merger *)





Lemma subsequence_refl {A : Type} (l : list A) : subsequence l l.
Proof. induction l; constructor; assumption. Qed.





Lemma subsequence_In {A : Type} (l k : list A) (x : A) :
  subsequence l k -> In x l -> In x k.
Proof.
  induction 1; cbn [In]; intuition.
Qed.




Section MergerProperties.

Variable similar : string -> string -> bool.

#[local] Abbreviation is_duplicate := (is_duplicate similar).
#[local] Abbreviation stands_against := (stands_against similar).
#[local] Abbreviation merge_step := (merge_step similar).
#[local] Abbreviation merge := (merge similar).

Lemma merge_snoc (cs : list FailureEvent) (c : FailureEvent) :
  merge (cs ++ [c]) = merge_step (merge cs) c.
Proof. unfold Pipeline.merge. now rewrite fold_left_app. Qed.













End MergerProperties.



(** *** The final ordering *)

Lemma js_le_trans (x y z : number) :
  js_le x y = true -> js_le y z = true -> js_le x z = true.
Proof.
  unfold js_le, SFleb.
  destruct x as [[]|[]| |[] mx ex], y as [[]|[]| |[] my ey],
           z as [[]|[]| |[] mz ez];
    cbn [SFcompare CompOpp]; try (intros; congruence);
    compare_cases; cbn [CompOpp]; intros; try congruence; lia.
Qed.

(** Two numbers that are not NaN are comparable. *)
Lemma js_le_total (x y : number) :
  is_nan x = false -> is_nan y = false ->
  js_le x y = false -> js_le y x = true.
Proof.
  unfold js_le, SFleb.
  destruct x as [[]|[]| |[] mx ex], y as [[]|[]| |[] my ey];
    cbn [SFcompare CompOpp is_nan]; try (intros; congruence);
    compare_cases; cbn [CompOpp]; intros; try congruence; lia.
Qed.

(** Numbers equal to a third one are ordered both ways. *)
Lemma SFeqb_le (x y t : number) :
  SFeqb x t = true -> SFeqb y t = true -> js_le x y = true.
Proof.
  unfold js_le, SFleb, SFeqb.
  destruct x as [[]|[]| |[] mx ex], y as [[]|[]| |[] my ey],
           t as [[]|[]| |[] mt et];
    cbn [SFcompare CompOpp]; try (intros; congruence);
    compare_cases; cbn [CompOpp]; intros; try congruence; lia.
Qed.

Lemma insert_by_time_perm (e : FailureEvent) (l : list FailureEvent) :
  Permutation (e :: l) (insert_by_time e l).
Proof.
  induction l as [|x l IH]; [reflexivity |].
  cbn [insert_by_time]. destruct (js_le _ _); [reflexivity |].
  rewrite perm_swap. now constructor.
Qed.

Lemma sort_by_time_perm (l : list FailureEvent) :
  Permutation l (sort_by_time l).
Proof.
  induction l as [|e l IH]; [constructor |].
  cbn [sort_by_time fold_right]. fold (sort_by_time l).
  rewrite <- insert_by_time_perm. now constructor.
Qed.

Lemma insert_by_time_sorted (e : FailureEvent) (l : list FailureEvent) :
  is_nan (timestamp_seconds e) = false ->
  Forall (fun x => is_nan (timestamp_seconds x) = false) l ->
  StronglySorted time_le l ->
  StronglySorted time_le (insert_by_time e l).
Proof.
  intros He Hl Hs. induction Hs as [|x l Hs IH Hx].
  - repeat constructor.
  - cbn [insert_by_time]. inversion Hl as [|? ? Hnx Hl']; subst.
    destruct (js_le (timestamp_seconds e) (timestamp_seconds x)) eqn:Hle.
    + constructor; [now constructor |].
      constructor; [exact Hle |].
      eapply Forall_impl; [| exact Hx].
      intros y Hy. unfold time_le in *. eapply js_le_trans; eassumption.
    + constructor; [now apply IH |].
      rewrite <- insert_by_time_perm.
      constructor; [| exact Hx].
      now apply js_le_total.
Qed.

Lemma sort_by_time_sorted (l : list FailureEvent) :
  Forall (fun x => is_nan (timestamp_seconds x) = false) l ->
  StronglySorted time_le (sort_by_time l).
Proof.
  induction 1 as [|e l He Hl IH]; [constructor |].
  cbn [sort_by_time fold_right]. fold (sort_by_time l).
  apply insert_by_time_sorted; [exact He | | exact IH].
  now rewrite <- sort_by_time_perm.
Qed.

(** Insertion puts an event before the sorted events of the same time. *)
Lemma insert_by_time_stable (t : number) (e : FailureEvent) (l : list FailureEvent) :
  filter (at_time t) (insert_by_time e l) = filter (at_time t) (e :: l).
Proof.
  induction l as [|x l IH]; [reflexivity |].
  cbn [insert_by_time].
  destruct (js_le (timestamp_seconds e) (timestamp_seconds x)) eqn:Hle;
    [reflexivity |].
  cbn [filter] in *. rewrite IH.
  destruct (at_time t e) eqn:He, (at_time t x) eqn:Hx; try reflexivity.
  unfold at_time in He, Hx.
  now rewrite (SFeqb_le _ _ _ He Hx) in Hle.
Qed.

Lemma sort_by_time_stable (t : number) (l : list FailureEvent) :
  filter (at_time t) (sort_by_time l) = filter (at_time t) l.
Proof.
  induction l as [|e l IH]; [reflexivity |].
  cbn [sort_by_time fold_right]. fold (sort_by_time l).
  rewrite insert_by_time_stable. cbn [filter]. now rewrite IH.
Qed.

Lemma merge_step_subset (similar : string -> string -> bool)
  (accepted : list FailureEvent) (c x : FailureEvent) :
  In x (Pipeline.merge_step similar accepted c) -> In x accepted \/ x = c.
Proof.
  unfold Pipeline.merge_step. destruct (existsb _ _); [now left |].
  intros H. apply in_app_or in H. destruct H as [H | [<- | []]]; [| now right].
  left. apply filter_In in H. now destruct H.
Qed.

(** The merger gives only events it was given. *)
Lemma merge_subset (similar : string -> string -> bool)
  (cs : list FailureEvent) (x : FailureEvent) :
  In x (Pipeline.merge similar cs) -> In x cs.
Proof.
  induction cs as [|c cs IH] using rev_ind; [intros [] |].
  rewrite merge_snoc. intros H. apply in_or_app.
  destruct (merge_step_subset _ _ _ _ H) as [Hin | ->]; [left; now apply IH |].
  right. now left.
Qed.

(** C5: the failures of the response are in ascending order of
    [timestamp_seconds], they are the merged events, and events of equal
    timestamp keep the order they were detected in; the merged timestamps
    42.3, 5.1, 18.0 are listed as 5.1, 18.0, 42.3. *)
Theorem response_is_sorted_by_timestamp
  (similar : string -> string -> bool) (events : list FailureEvent) :
  (forall e, In e events -> is_nan (timestamp_seconds e) = false) ->
  let merged := Pipeline.merge similar events in
  let listed := failures (respond similar events) in
  StronglySorted time_le listed
  /\ Permutation merged listed
  /\ (forall t, filter (at_time t) listed = filter (at_time t) merged)
  /\ map timestamp_seconds
       (sort_by_time [ event_at (num_ratio 423 10) "a" (num_of_Z 1);
                       event_at (num_ratio 51 10) "b" (num_of_Z 1);
                       event_at (num_of_Z 18) "c" (num_of_Z 1) ])
     = [num_ratio 51 10; num_of_Z 18; num_ratio 423 10].
Proof.
  intros Hnan merged listed. subst merged listed. cbn [respond failures].
  split.
  { apply sort_by_time_sorted. apply Forall_forall.
    intros e He. apply Hnan. now apply merge_subset in He. }
  split; [apply sort_by_time_perm |].
  split; [intros t; apply sort_by_time_stable |].
  vm_compute. reflexivity.
Qed.

Lemma response_sorted_witness :
  (forall e, In e sample_events -> is_nan (timestamp_seconds e) = false)
  /\ failures (respond mention_submit sample_events) = [submit_12; export_50]
  /\ StronglySorted time_le (failures (respond mention_submit sample_events)).
Proof.
  assert (Hnan : forall e, In e sample_events ->
                           is_nan (timestamp_seconds e) = false).
  { intros e [<- | [<- | [<- | []]]]; reflexivity. }
  split; [exact Hnan |]. split; [reflexivity |].
  exact (proj1 (response_is_sorted_by_timestamp mention_submit sample_events Hnan)).
Defined.

(** ** Further properties of the page component *)

(** *** The state variables and the state *)

Lemma handleFile_cases (f : File) (h : Home) :
  handleFile f h = setState st_error (setError unsupported_format h)
  \/ handleFile f h = setState st_error (setError (file_too_large f) h)
  \/ handleFile f h
     = setResult None (setError "" (setState st_selected (setFile (Some f) h))).
Proof.
  unfold handleFile. destruct (negb _); [now left |].
  destruct (js_gt _ _); [right; now left | right; now right].
Qed.

Lemma handleFile_Coherent (f : File) (h : Home) :
  state h = st_idle -> Coherent h -> Coherent (handleFile f h).
Proof.
  intros Hs Hc. unfold Coherent in Hc. rewrite Hs in Hc.
  destruct Hc as (Hf & Hr & He & Hcp & Hsj & Ha & Hi).
  destruct (handleFile_cases f h) as [-> | [-> | ->]];
    unfold Coherent; cbn; repeat split; try assumption.
  now exists f.
Qed.

Lemma analyze_settle_Coherent (r : FetchResult) (h : Home) :
  state h = st_analyzing -> Coherent h -> Coherent (analyze_settle r h).
Proof.
  intros Hs Hc. unfold Coherent in Hc. rewrite Hs in Hc.
  destruct Hc as (Hf & Hr & He & Hcp & Hsj & Hi).
  settle_cases; unfold Coherent; cbn; repeat split; try assumption.
  eexists; reflexivity.
Qed.

Section Coherence.

Variable NEXT_PUBLIC_API_URL : option string.

#[local] Abbreviation step := (step NEXT_PUBLIC_API_URL).
#[local] Abbreviation run := (run NEXT_PUBLIC_API_URL).

Lemma Coherent_initial : Coherent initial.
Proof. unfold Coherent. cbn. repeat split. Qed.

Lemma step_Coherent (h : Home) (ev : Event) :
  Coherent h -> Coherent (fst (step h ev)).
Proof.
  intros Hc. destruct ev; unfold Page.step; cbn [fst].
  - destruct (AppState_eqb (state h) st_idle) eqn:Hs; [| exact Hc].
    assert (Hi : state h = st_idle) by (destruct (state h); now try discriminate).
    unfold onDrop. destruct dropped as [f|].
    + apply handleFile_Coherent; [exact Hi |].
      unfold Coherent in *. cbn. rewrite Hi in *. exact Hc.
    + unfold Coherent in *. cbn. rewrite Hi in *. exact Hc.
  - destruct (AppState_eqb (state h) st_idle); exact Hc.
  - destruct (AppState_eqb (state h) st_idle); exact Hc.
  - destruct (AppState_eqb (state h) st_idle) eqn:Hs; [| exact Hc].
    assert (Hi : state h = st_idle) by (destruct (state h); now try discriminate).
    unfold onFileInput. destruct chosen as [f|]; [| exact Hc].
    now apply handleFile_Coherent.
  - destruct (AppState_eqb (state h) st_selected) eqn:Hs; cbn [andb]; [| exact Hc].
    assert (Hi : state h = st_selected) by (destruct (state h); now try discriminate).
    unfold Coherent in Hc. rewrite Hi in Hc.
    destruct Hc as ((f & Hf) & Hr & He & Hcp & Hsj & Ha & Hiv).
    rewrite Hf. unfold analyze_begin. rewrite Hf. cbn [fst].
    unfold Coherent. cbn. repeat split; try assumption. now exists f.
  - unfold Coherent in *.
    destruct (results_shown h) eqn:Hrs;
      [destruct (results_shown_done h Hrs) as [Hd _]; rewrite orb_true_r;
       cbn; rewrite Hd in Hc; decompose [and] Hc; repeat split; assumption |].
    rewrite orb_false_r.
    destruct (state h) eqn:Hi; cbn [AppState_eqb andb orb];
      try (rewrite Hi; exact Hc);
      repeat match goal with
             | |- context [if ?c then _ else _] => destruct c
             | |- context [match file h with _ => _ end] => destruct (file h)
             end;
      cbn; rewrite ?Hi; try exact Hc;
      decompose [and] Hc; repeat split; assumption.
  - destruct (results_shown h) eqn:Hs; [| exact Hc].
    destruct (results_shown_done h Hs) as [Hi _].
    unfold copyJson. destruct (truthy _); [| exact Hc].
    unfold Coherent in *. cbn. rewrite Hi in *. exact Hc.
  - destruct (results_shown h) eqn:Hs; [| exact Hc].
    destruct (results_shown_done h Hs) as [Hi _].
    unfold Coherent in *. cbn. rewrite Hi in *. exact Hc.
  - destruct (stepInterval h) eqn:Hi; [| exact Hc].
    unfold Coherent in *. cbn.
    destruct (state h); try exact Hc; decompose [and] Hc; congruence.
  - unfold Coherent in *. cbn.
    destruct (state h); repeat split; try apply Hc.
  - destruct (stepInterval h) eqn:Hi; [| exact Hc].
    apply analyze_settle_Coherent; [| exact Hc].
    unfold Coherent in Hc.
    destruct (state h); try reflexivity;
      repeat match goal with H : _ /\ _ |- _ => destruct H end; congruence.
Qed.

Lemma run_Coherent (evs : list Event) (h : Home) :
  Coherent h -> Coherent (fst (run h evs)).
Proof.
  revert h. induction evs as [|ev evs IH]; intros h Hh; cbn [Page.run].
  - exact Hh.
  - pose proof (step_Coherent h ev Hh) as H1.
    destruct (step h ev) as [h1 sent1]. cbn [fst] in H1.
    specialize (IH h1 H1).
    destruct (run h1 evs) as [h2 sent2]. exact IH.
Qed.

(** X1: after any sequence of events a result is held only in the "done"
    state, the error message is empty outside the "error" state, and the
    flags of the results block ([copied], [showJson]) are set only in the
    "done" state: nothing of an earlier upload is left behind. *)
Theorem nothing_stale_outside_its_state (evs : list Event) :
  let h := fst (run initial evs) in
  (forall data, result h = Some data -> state h = st_done)
  /\ (error h <> "" -> state h = st_error)
  /\ (copied h = true -> state h = st_done)
  /\ (showJson h = true -> state h = st_done).
Proof.
  intros h. pose proof (run_Coherent evs initial Coherent_initial) as Hc.
  fold h in Hc. unfold Coherent in Hc.
  destruct (state h); decompose [and] Hc;
    repeat split; try reflexivity; intros; congruence.
Qed.


(** X3: in the "selected", "analyzing" and "done" states reached by any
    sequence of events the component holds a file that passed both checks,
    and in the "idle" state none; so the guard of [analyze] against a missing
    file never fires, and a click on Analyze sends exactly one request, with
    that file. *)
Theorem analyze_always_has_its_file (evs : list Event) :
  let h := fst (run initial evs) in
  (state h = st_idle -> file h = None)
  /\ (state h = st_selected \/ state h = st_analyzing \/ state h = st_done ->
      exists f, file h = Some f /\ accepted f = true)
  /\ (state h = st_selected ->
      exists f, file h = Some f
        /\ step h ClickAnalyze
           = (fst (analyze_begin NEXT_PUBLIC_API_URL h),
              [{| url := API_URL NEXT_PUBLIC_API_URL ++ "/analyze";
                  method := "POST"; body := [("file", f)] |}])
        /\ state (fst (step h ClickAnalyze)) = st_analyzing).
Proof.
  intros h. pose proof (run_Coherent evs initial Coherent_initial) as Hc.
  destruct (run_Inv NEXT_PUBLIC_API_URL evs initial Inv_initial) as [[Hacc _] _].
  fold h in Hc, Hacc. unfold Coherent in Hc.
  assert (Hheld : state h = st_selected \/ state h = st_analyzing
                  \/ state h = st_done ->
                  exists f, file h = Some f /\ accepted f = true).
  { intros Hs.
    assert (Hf : exists f, file h = Some f).
    { destruct (state h); try apply Hc;
        destruct Hs as [Hs | [Hs | Hs]]; discriminate. }
    destruct Hf as [f Hf]. exists f. split; [exact Hf | now apply Hacc]. }
  split.
  { intros Hs. rewrite Hs in Hc. apply Hc. }
  split; [exact Hheld |].
  intros Hs. destruct (Hheld (or_introl Hs)) as (f & Hf & _).
  exists f. split; [exact Hf |].
  destruct (analyze_begin_sends NEXT_PUBLIC_API_URL h f Hf) as (Hsent & _ & Hst & _).
  unfold Page.step. rewrite Hs, Hf. cbn [AppState_eqb andb].
  split; [| exact Hst].
  rewrite <- Hsent. now destruct (analyze_begin NEXT_PUBLIC_API_URL h).
Qed.

(** X4: while the component is "analyzing" no event of the user has any
    effect: the request cannot be cancelled, repeated or replaced, whatever
    is dropped, chosen or clicked. *)
Theorem nothing_to_do_while_analyzing (h : Home) (ev : Event) :
  state h = st_analyzing -> user_event ev = true -> step h ev = (h, []).
Proof.
  intros Hs Hu.
  assert (Hr : results_shown h = false)
    by (apply results_shown_not_done; rewrite Hs; discriminate).
  destruct ev; try discriminate;
    unfold Page.step; rewrite ?Hs, ?Hr; reflexivity.
Qed.

Lemma step_requests_settled (h : Home) (ev : Event) :
  Coherent h ->
  (List.length (snd (step h ev)) + (if stepInterval h then 1 else 0)
   <= (if is_settled ev then 1 else 0)
      + (if stepInterval (fst (step h ev)) then 1 else 0))%nat.
Proof.
  intros Hc. destruct ev; unfold Page.step; cbn [fst snd is_settled List.length].
  - destruct (AppState_eqb _ _); [| lia]. unfold onDrop.
    destruct dropped as [f|]; [| cbn; lia].
    destruct (handleFile_cases f (setDragover false h)) as [-> | [-> | ->]];
      cbn; lia.
  - destruct (AppState_eqb _ _); cbn; lia.
  - destruct (AppState_eqb _ _); cbn; lia.
  - destruct (AppState_eqb _ _); [| lia]. unfold onFileInput.
    destruct chosen as [f|]; [| lia].
    destruct (handleFile_cases f h) as [-> | [-> | ->]]; cbn; lia.
  - destruct (AppState_eqb (state h) st_selected) eqn:Hs; cbn [andb];
      [| cbn; lia].
    assert (Hi : state h = st_selected) by (destruct (state h); now try discriminate).
    unfold Coherent in Hc. rewrite Hi in Hc.
    destruct Hc as ((f & Hf) & _ & _ & _ & _ & _ & Hiv).
    rewrite Hf. unfold analyze_begin. rewrite Hf, Hiv. cbn. lia.
  - destruct (_ || _); cbn; lia.
  - destruct (results_shown h); [| cbn; lia].
    unfold copyJson. destruct (truthy _); cbn; lia.
  - destruct (results_shown h); cbn; lia.
  - destruct (stepInterval h) eqn:Hi; cbn; rewrite ?Hi; lia.
  - cbn. lia.
  - destruct (stepInterval h) eqn:Hi; cbn [fst snd List.length];
      [| rewrite Hi; lia].
    destruct (stepInterval (analyze_settle r h)); lia.
Qed.

Lemma run_requests_settled (evs : list Event) (h : Home) :
  Coherent h ->
  (List.length (snd (run h evs)) + (if stepInterval h then 1 else 0)
   <= List.length (filter is_settled evs)
      + (if stepInterval (fst (run h evs)) then 1 else 0))%nat.
Proof.
  revert h. induction evs as [|ev evs IH]; intros h Hc; cbn [Page.run filter].
  - cbn. lia.
  - pose proof (step_requests_settled h ev Hc) as H1.
    pose proof (step_Coherent h ev Hc) as Hc1.
    destruct (step h ev) as [h1 sent1]. cbn [fst snd] in *.
    specialize (IH h1 Hc1).
    destruct (run h1 evs) as [h2 sent2]. cbn [fst snd] in *.
    rewrite length_app.
    destruct (is_settled ev); cbn [List.length]; lia.
Qed.

(** X5: at most one request is in flight: in every run the number of
    requests sent is at most the number of settled requests, plus one when
    the component ends "analyzing". *)
Theorem one_request_in_flight (evs : list Event) :
  let '(h, sent) := run initial evs in
  (List.length sent
   <= List.length (filter is_settled evs)
      + (if AppState_eqb (state h) st_analyzing then 1 else 0))%nat.
Proof.
  pose proof (run_requests_settled evs initial Coherent_initial) as H.
  pose proof (run_Coherent evs initial Coherent_initial) as Hc.
  destruct (run initial evs) as [h sent]. cbn [fst snd] in *.
  cbn [stepInterval initial] in H.
  assert (Hi : stepInterval h = AppState_eqb (state h) st_analyzing).
  { unfold Coherent in Hc.
    destruct (state h); decompose [and] Hc; cbn; assumption. }
  rewrite <- Hi. lia.
Qed.

(** X6: [analyze] stores the JSON body of an ok response as it is, whatever
    its shape, and goes to "done".  When that body is falsy ([null], [false],
    zero or the empty string), or is one for which rendering the results
    block throws, the results block with its buttons is not available, and
    no sequence of events leaves the "done" state or sends a request any
    more. *)
Theorem falsy_success_body_is_a_dead_end
  (res : Response) (data : json) (h : Home) (evs : list Event) :
  ok res = true ->
  json_result res = JsonValue data ->
  let h' := analyze_settle (FetchResolved res) h in
  state h' = st_done
  /\ result h' = Some data
  /\ (truthy (Some data) = false \/ failures_shown data = None ->
      results_shown h' = false
      /\ state (fst (run h' evs)) = st_done
      /\ result (fst (run h' evs)) = Some data
      /\ snd (run h' evs) = []).
Proof.
  intros Hok Hj h'. subst h'. rewrite (settle_ok res data h Hok Hj).
  split; [reflexivity |]. split; [reflexivity |].
  intros Hf.
  set (h0 := setState st_done (setResult (Some data) (setStepInterval false h))).
  assert (Hhidden : forall g,
            state g = st_done -> result g = Some data -> results_shown g = false).
  { intros g Hs Hr. rewrite results_shown_spec, Hs, Hr. cbn [AppState_eqb andb].
    destruct Hf as [-> | ->]; [reflexivity | apply andb_false_r]. }
  assert (Hstuck : forall g,
            state g = st_done /\ result g = Some data /\ stepInterval g = false ->
            forall ev, (state (fst (step g ev)) = st_done
                        /\ result (fst (step g ev)) = Some data
                        /\ stepInterval (fst (step g ev)) = false)
                       /\ snd (step g ev) = []).
  { intros g (Hs & Hr & Hi) ev.
    destruct ev; unfold Page.step; cbn zeta;
      rewrite ?(Hhidden g Hs Hr), ?Hs, ?Hr, ?Hi;
      cbn [AppState_eqb andb orb fst snd]; cbn;
      repeat split; assumption. }
  assert (Hrun : forall l g,
            state g = st_done /\ result g = Some data /\ stepInterval g = false ->
            (state (fst (run g l)) = st_done
             /\ result (fst (run g l)) = Some data)
            /\ snd (run g l) = []).
  { induction l as [|ev l IH]; intros g Hg; cbn [Page.run].
    - cbn. repeat split; apply Hg.
    - destruct (Hstuck g Hg ev) as [Hg1 Hs1].
      destruct (step g ev) as [g1 s1]. cbn [fst snd] in *.
      destruct (IH g1 Hg1) as [Hg2 Hs2].
      destruct (run g1 l) as [g2 s2]. cbn [fst snd] in *.
      split; [exact Hg2 | now rewrite Hs1, Hs2]. }
  split; [now apply Hhidden |].
  destruct (Hrun evs h0) as [[H1 H2] H3]; [repeat split |].
  repeat split; assumption.
Qed.

End Coherence.

Lemma nothing_stale_witness :
  result (fst (run None initial
                 [ FileInput (Some clip_mp4); ClickAnalyze;
                   FetchSettled (FetchResolved sample_success) ]))
  = Some (AnalyzeResponse_json {| failures := [sample_event] |})
  /\ state (fst (run None initial
                   [ FileInput (Some clip_mp4); ClickAnalyze;
                     FetchSettled (FetchResolved sample_success) ])) = st_done
  /\ error (fst (run None initial [FileInput (Some notes_txt)])) <> ""
  /\ state (fst (run None initial [FileInput (Some notes_txt)])) = st_error.
Proof.
  split; [reflexivity |].
  split.
  - exact (proj1 (nothing_stale_outside_its_state None
             [ FileInput (Some clip_mp4); ClickAnalyze;
               FetchSettled (FetchResolved sample_success) ]) _ eq_refl).
  - assert (He : error (fst (run None initial [FileInput (Some notes_txt)])) <> "")
      by discriminate.
    split; [exact He |].
    exact (proj1 (proj2 (nothing_stale_outside_its_state None
             [FileInput (Some notes_txt)])) He).
Defined.


Lemma analyze_has_its_file_witness :
  state (fst (run None initial [FileInput (Some clip_mp4)])) = st_selected
  /\ exists f,
       file (fst (run None initial [FileInput (Some clip_mp4)])) = Some f
       /\ accepted f = true.
Proof.
  split; [reflexivity |].
  exact (proj1 (proj2 (analyze_always_has_its_file None
                         [FileInput (Some clip_mp4)]))
           (or_introl eq_refl)).
Defined.

Lemma nothing_to_do_witness :
  state in_flight = st_analyzing
  /\ user_event ClickReset = true
  /\ step None in_flight ClickReset = (in_flight, [])
  /\ step None in_flight (Drop (Some demo_mov)) = (in_flight, []).
Proof.
  split; [reflexivity |]. split; [reflexivity |].
  split.
  - exact (nothing_to_do_while_analyzing None in_flight ClickReset eq_refl eq_refl).
  - exact (nothing_to_do_while_analyzing None in_flight (Drop (Some demo_mov))
             eq_refl eq_refl).
Defined.

Lemma dead_end_witness :
  ok null_success = true
  /\ truthy (Some JNull) = false
  /\ state (fst (run None after_null [ClickReset; ClickCopy; Drop (Some clip_mp4)]))
     = st_done
  /\ snd (run None after_null [ClickReset; ClickCopy; Drop (Some clip_mp4)]) = []
  /\ ok bare_success = true
  /\ failures_shown (JObj []) = None
  /\ render after_bare = None
  /\ state (fst (run None after_bare [ClickReset; ClickCopy; Drop (Some clip_mp4)]))
     = st_done.
Proof.
  split; [reflexivity |]. split; [reflexivity |].
  pose proof (proj2 (proj2 (falsy_success_body_is_a_dead_end None
                null_success JNull in_flight
                [ClickReset; ClickCopy; Drop (Some clip_mp4)] eq_refl eq_refl))
              (or_introl eq_refl)) as (_ & H1 & _ & H3).
  split; [exact H1 |]. split; [exact H3 |].
  split; [reflexivity |]. split; [reflexivity |]. split; [reflexivity |].
  exact (proj1 (proj2 (proj2 (proj2 (falsy_success_body_is_a_dead_end None
           bare_success (JObj []) in_flight
           [ClickReset; ClickCopy; Drop (Some clip_mp4)] eq_refl eq_refl))
         (or_intror eq_refl)))).
Defined.

(** *** What is rendered, and the way through an upload *)

Section Journey.

Variable NEXT_PUBLIC_API_URL : option string.

#[local] Abbreviation step := (step NEXT_PUBLIC_API_URL).
#[local] Abbreviation run := (run NEXT_PUBLIC_API_URL).

Lemma render_not_done (h : Home) :
  state h <> st_done ->
  exists v,
    render h = Some v
    /\ results v = None
    /\ upload_zone v
       = (if AppState_eqb (state h) st_idle then Some (dragover h) else None)
    /\ file_info v
       = match file h with
         | Some f =>
             if AppState_eqb (state h) st_selected
             then Some {| file_name := name f;
                          file_size := formatFileSize (size f) |}
             else None
         | None => None
         end
    /\ progress_steps v
       = (if AppState_eqb (state h) st_analyzing
          then Some (map (fun '(step, i) => (step, step_mark i (activeStep h)))
                       (combine PIPELINE_STEPS
                          (map Z.of_nat (seq 0 (List.length PIPELINE_STEPS)))))
          else None)
    /\ error_message v
       = (if AppState_eqb (state h) st_error then Some (error h) else None).
Proof.
  intros Hs. unfold render.
  assert (Hd : AppState_eqb (state h) st_done = false)
    by (destruct (state h); try reflexivity; now destruct Hs).
  rewrite Hd. cbn [andb]. eexists. repeat split.
Qed.

(** X7: in every "analyzing" state reached, the progress block lists the
    five pipeline steps in order, the first [activeStep] of them marked done,
    the next one active and the remaining ones pending: exactly one step is
    active. *)
Theorem progress_marks_one_active_step (evs : list Event) :
  let h := fst (run initial evs) in
  state h = st_analyzing ->
  exists v steps,
    render h = Some v
    /\ progress_steps v = Some steps
    /\ map fst steps = PIPELINE_STEPS
    /\ map snd steps
       = (repeat step_done (Z.to_nat (activeStep h)) ++ [step_active]
            ++ repeat step_pending (Z.to_nat (last_step - activeStep h)))%list
    /\ List.length (filter is_active (map snd steps)) = 1%nat.
Proof.
  intros h Hs.
  destruct (run_Inv NEXT_PUBLIC_API_URL evs initial Inv_initial) as [[_ Ha] _].
  fold h in Ha. change last_step with 4 in Ha |- *.
  destruct (render_not_done h) as (v & Hv & _ & _ & _ & Hp & _);
    [rewrite Hs; discriminate |].
  rewrite Hs in Hp. cbn [AppState_eqb] in Hp.
  exists v. eexists. split; [exact Hv |]. split; [exact Hp |].
  assert (Hcases : activeStep h = 0 \/ activeStep h = 1 \/ activeStep h = 2
                   \/ activeStep h = 3 \/ activeStep h = 4) by lia.
  destruct Hcases as [-> | [-> | [-> | [-> | ->]]]]; repeat split.
Qed.

(** X8: the conditional blocks exclude one another: no state renders two
    of them, and every state reached other than "done" renders exactly one:
    the upload zone when idle, the file with its size when selected, the
    progress steps when analyzing, the error message in the error state. *)
Theorem one_block_at_a_time :
  (forall h v, render h = Some v -> (blocks_shown v <= 1)%nat)
  /\ (forall evs,
        let h := fst (run initial evs) in
        state h <> st_done ->
        exists v,
          render h = Some v
          /\ blocks_shown v = 1%nat
          /\ (state h = st_idle -> upload_zone v = Some (dragover h))
          /\ (state h = st_selected ->
              exists f, file h = Some f
                /\ file_info v = Some {| file_name := name f;
                                         file_size := formatFileSize (size f) |})
          /\ (state h = st_analyzing -> progress_steps v <> None)
          /\ (state h = st_error -> error_message v = Some (error h))).
Proof.
  split.
  - intros h v. unfold render.
    destruct (state h) eqn:Hs; cbn [AppState_eqb andb];
      try (intros [= <-]; unfold blocks_shown; cbn;
           destruct (file h); cbn; lia).
    destruct (result h) as [data|]; [| intros [= <-]; cbn; destruct (file h); cbn; lia].
    destruct (truthy (Some data)); [| intros [= <-]; cbn; destruct (file h); cbn; lia].
    destruct (results_block data h); cbn [option_map]; [| discriminate].
    intros [= <-]. cbn. destruct (file h); cbn; lia.
  - intros evs h Hn.
    pose proof (run_Coherent NEXT_PUBLIC_API_URL evs initial Coherent_initial) as Hc.
    fold h in Hc. unfold Coherent in Hc.
    destruct (render_not_done h Hn) as (v & Hv & Hr & Hu & Hf & Hp & He).
    exists v. split; [exact Hv |].
    unfold blocks_shown. rewrite Hr, Hu, Hf, Hp, He.
    destruct (state h) eqn:Hs; try (now destruct Hn); cbn [AppState_eqb].
    + destruct Hc as (Hfile & _). rewrite Hfile.
      repeat split; try discriminate.
    + destruct Hc as ((f & Hfile) & _). rewrite Hfile.
      repeat split; try discriminate.
      intros _. now exists f.
    + destruct (file h); repeat split; discriminate.
    + destruct (file h); repeat split; discriminate.
Qed.

(** X9: wherever a reset button is rendered in a state reached ("selected",
    "error", or "done" with its results block), the click brings back the
    initial state, but for the drag highlight, which [reset] does not
    touch; nothing of the file, the result, the error or the progress is
    left. *)
Theorem reset_restores_the_initial_state (evs : list Event) :
  let h := fst (run initial evs) in
  state h = st_selected \/ state h = st_error \/ results_shown h = true ->
  step h ClickReset = (setDragover (dragover h) initial, []).
Proof.
  intros h Hs.
  pose proof (run_Coherent NEXT_PUBLIC_API_URL evs initial Coherent_initial) as Hc.
  fold h in Hc. unfold Coherent in Hc.
  assert (Hs' : state h = st_selected \/ state h = st_error \/ state h = st_done).
  { destruct Hs as [Hs | [Hs | Hs]]; auto.
    right. right. now apply results_shown_done. }
  assert (Hi : stepInterval h = false).
  { destruct Hs' as [H | [H | H]]; rewrite H in Hc; apply Hc. }
  assert (Hshown : (AppState_eqb (state h) st_selected
                      && match file h with Some _ => true | None => false end
                    || AppState_eqb (state h) st_error
                    || results_shown h) = true).
  { destruct Hs as [Hs | [Hs | Hs]].
    - rewrite Hs in *. cbn [AppState_eqb]. destruct Hc as ((f & ->) & _). reflexivity.
    - rewrite Hs. cbn [AppState_eqb]. now rewrite orb_true_r.
    - rewrite Hs. apply orb_true_r. }
  unfold Page.step. rewrite Hshown. f_equal.
  clearbody h. destruct h. cbn in Hi. subst. reflexivity.
Qed.

Lemma run_app (l1 l2 : list Event) (h : Home) :
  run h (l1 ++ l2)
  = (fst (run (fst (run h l1)) l2),
     (snd (run h l1) ++ snd (run (fst (run h l1)) l2))%list).
Proof.
  revert h. induction l1 as [|ev l1 IH]; intros h; cbn [app Page.run].
  - cbn. now destruct (run h l2).
  - destruct (step h ev) as [h1 s1]. rewrite IH.
    destruct (run h1 l1) as [h2 s2]. cbn [fst snd].
    destruct (run h2 l2) as [h3 s3]. cbn [fst snd].
    now rewrite app_assoc.
Qed.

Lemma run_ticks (n : nat) (h : Home) :
  stepInterval h = true ->
  0 <= activeStep h <= last_step ->
  run h (repeat IntervalTick n)
  = (setActiveStep (fun _ => Z.min (activeStep h + Z.of_nat n) last_step) h, []).
Proof.
  revert h. induction n as [|n IH]; intros h Hi Ha.
  - cbn [repeat Page.run]. f_equal.
    destruct h. unfold setActiveStep. cbn in *. f_equal. lia.
  - cbn [repeat Page.run]. unfold Page.step at 1. rewrite Hi.
    rewrite IH; [| exact Hi | rewrite tick_activeStep; lia].
    cbn [app]. f_equal. unfold setActiveStep, tick. cbn. f_equal.
    change (Z.of_nat (List.length PIPELINE_STEPS) - 1) with last_step. lia.
Qed.

(** X10: the whole way of an upload.  For a file that passes both checks,
    any number [n] of ticks and an ok response whose body has the declared
    type, the events "choose the file, click Analyze, [n] ticks, response"
    send exactly one request, the form with that file, and end in the "done"
    state with the file still held, the body as result, no error message, the
    progress step at [min n 4], the interval stopped and the results block
    as the only block rendered. *)
Theorem upload_analyze_results
  (f : File) (n : nat) (res : Response) (data : json) (r : AnalyzeResponse) :
  accepted f = true ->
  ok res = true ->
  json_result res = JsonValue data ->
  as_AnalyzeResponse data = Some r ->
  let evs := (FileInput (Some f) :: ClickAnalyze :: repeat IntervalTick n
                ++ [FetchSettled (FetchResolved res)])%list in
  let h := fst (run initial evs) in
  snd (run initial evs) = [submit NEXT_PUBLIC_API_URL f]
  /\ state h = st_done
  /\ file h = Some f
  /\ result h = Some data
  /\ error h = ""
  /\ activeStep h = Z.min (Z.of_nat n) last_step
  /\ stepInterval h = false
  /\ exists v, render h = Some v
               /\ results v = Some (results_of r h)
               /\ blocks_shown v = 1%nat.
Proof.
  intros Hacc Hok Hj Hd evs h.
  unfold accepted in Hacc. apply andb_true_iff in Hacc.
  destruct Hacc as [Hext Hsize]. apply negb_true_iff in Hsize.
  assert (Hrun : run initial evs
            = (setState st_done (setResult (Some data) (setStepInterval false
                 (setActiveStep (fun _ => Z.min (Z.of_nat n) last_step)
                    (fst (analyze_begin NEXT_PUBLIC_API_URL
                            (handleFile f initial)))))),
               [submit NEXT_PUBLIC_API_URL f])).
  { unfold evs. cbn [Page.run]. unfold Page.step at 1. cbn [AppState_eqb state initial].
    unfold onFileInput. rewrite (handleFile_accepts f initial Hext Hsize).
    unfold Page.step at 1. cbn [AppState_eqb state file setResult setError setState setFile andb].
    unfold analyze_begin at 1. cbn [file setResult setError setState setFile].
    rewrite run_app, run_ticks; [| reflexivity | cbv; split; discriminate].
    cbn [fst snd Page.run]. unfold Page.step. cbn [stepInterval setActiveStep setStepInterval].
    rewrite (settle_ok res data _ Hok Hj). reflexivity. }
  subst h. rewrite Hrun. cbn [fst snd].
  split; [reflexivity |].
  rewrite (handleFile_accepts f initial Hext Hsize).
  unfold analyze_begin. cbn [file setResult setError setState setFile fst].
  repeat (split; [reflexivity |]).
  set (g := setState st_done _).
  destruct (render_done g data r eq_refl eq_refl Hd) as (v & Hv & HR & He).
  exists v. split; [exact Hv |]. split; [exact HR |].
  unfold render in Hv. cbn [g state setState AppState_eqb result setResult] in Hv.
  rewrite (results_block_typed _ _ g Hd) in Hv.
  destruct data; try discriminate. cbn [truthy option_map] in Hv.
  injection Hv as <-. reflexivity.
Qed.

End Journey.

Lemma progress_marks_witness :
  state (fst (run None initial
                [FileInput (Some clip_mp4); ClickAnalyze; IntervalTick; IntervalTick]))
  = st_analyzing
  /\ exists v steps,
       render (fst (run None initial
                      [FileInput (Some clip_mp4); ClickAnalyze; IntervalTick;
                       IntervalTick])) = Some v
       /\ progress_steps v = Some steps
       /\ map snd steps
          = [step_done; step_done; step_active; step_pending; step_pending].
Proof.
  split; [reflexivity |].
  destruct (progress_marks_one_active_step None
              [FileInput (Some clip_mp4); ClickAnalyze; IntervalTick; IntervalTick]
              eq_refl) as (v & steps & Hv & Hp & _ & Hm & _).
  exists v, steps. split; [exact Hv |]. split; [exact Hp | exact Hm].
Defined.

Lemma one_block_witness :
  state (fst (run None initial [FileInput (Some notes_txt)])) <> st_done
  /\ exists v,
       render (fst (run None initial [FileInput (Some notes_txt)])) = Some v
       /\ blocks_shown v = 1%nat
       /\ error_message v
          = Some "Unsupported format. Please upload MP4, MOV, or WebM.".
Proof.
  assert (Hn : state (fst (run None initial [FileInput (Some notes_txt)]))
               <> st_done) by discriminate.
  split; [exact Hn |].
  destruct (proj2 (one_block_at_a_time None) [FileInput (Some notes_txt)] Hn)
    as (v & Hv & Hb & _ & _ & _ & He).
  exists v. split; [exact Hv |]. split; [exact Hb |].
  exact (He eq_refl).
Defined.

Lemma reset_witness :
  state (fst (run None initial
                [ FileInput (Some clip_mp4); ClickAnalyze;
                  FetchSettled (FetchResolved bad_gateway) ])) = st_error
  /\ step None
       (fst (run None initial
               [ FileInput (Some clip_mp4); ClickAnalyze;
                 FetchSettled (FetchResolved bad_gateway) ]))
       ClickReset
     = (initial, []).
Proof.
  split; [reflexivity |].
  exact (reset_restores_the_initial_state None
           [ FileInput (Some clip_mp4); ClickAnalyze;
             FetchSettled (FetchResolved bad_gateway) ]
           (or_intror (or_introl eq_refl))).
Defined.

Lemma upload_analyze_witness :
  accepted clip_mp4 = true
  /\ ok sample_success = true
  /\ snd (run None initial
            (FileInput (Some clip_mp4) :: ClickAnalyze
               :: repeat IntervalTick 9
               ++ [FetchSettled (FetchResolved sample_success)])%list)
     = [submit None clip_mp4]
  /\ state (fst (run None initial
                   (FileInput (Some clip_mp4) :: ClickAnalyze
                      :: repeat IntervalTick 9
                      ++ [FetchSettled (FetchResolved sample_success)])%list))
     = st_done.
Proof.
  split; [reflexivity |]. split; [reflexivity |].
  pose proof (upload_analyze_results None clip_mp4 9 sample_success
                (AnalyzeResponse_json {| failures := [sample_event] |})
                {| failures := [sample_event] |}
                eq_refl eq_refl eq_refl eq_refl) as (Hsent & Hstate & _).
  split; [exact Hsent | exact Hstate].
Defined.

(** *** The helpers outside their usual inputs *)

(** X11: [confidenceClass] is monotone: of two confidences the greater one
    never gets the lower class.  Every number gets one of the three classes;
    the bounds 0.7 and 0.4 belong to the upper class, and a confidence that
    is NaN gets the low class. *)
Theorem confidenceClass_is_monotone :
  (forall c1 c2, js_le c1 c2 = true ->
     class_rank (confidenceClass c1) <= class_rank (confidenceClass c2))
  /\ (forall c, confidenceClass c = "confidence-high"
                \/ confidenceClass c = "confidence-medium"
                \/ confidenceClass c = "confidence-low")
  /\ confidenceClass (num_ratio 7 10) = "confidence-high"
  /\ confidenceClass (num_ratio 4 10) = "confidence-medium"
  /\ confidenceClass S754_nan = "confidence-low".
Proof.
  split.
  - intros c1 c2 Hle. unfold confidenceClass, js_ge. fold (js_le (num_ratio 7 10) c1).
    fold (js_le (num_ratio 7 10) c2). fold (js_le (num_ratio 4 10) c1).
    fold (js_le (num_ratio 4 10) c2).
    destruct (js_le (num_ratio 7 10) c1) eqn:H7.
    + rewrite (js_le_trans _ _ _ H7 Hle). reflexivity.
    + destruct (js_le (num_ratio 4 10) c1) eqn:H4.
      * rewrite (js_le_trans _ _ _ H4 Hle).
        destruct (js_le (num_ratio 7 10) c2); cbv; discriminate.
      * destruct (js_le (num_ratio 7 10) c2), (js_le (num_ratio 4 10) c2);
          cbv; discriminate.
  - split; [| repeat split].
    intros c. unfold confidenceClass.
    destruct (js_ge c (num_ratio 7 10)); [now left |].
    destruct (js_ge c (num_ratio 4 10)); [right; now left | right; now right].
Qed.

Lemma confidenceClass_witness :
  js_le (num_ratio 55 100) (num_ratio 85 100) = true
  /\ class_rank (confidenceClass (num_ratio 55 100))
     <= class_rank (confidenceClass (num_ratio 85 100))
  /\ confidenceClass (num_ratio 55 100) = "confidence-medium"
  /\ confidenceClass (num_ratio 85 100) = "confidence-high".
Proof.
  split; [reflexivity |].
  split; [| split; reflexivity].
  exact (proj1 confidenceClass_is_monotone
           (num_ratio 55 100) (num_ratio 85 100) eq_refl).
Defined.

Lemma Zneg_iter_xO (m d : positive) :
  Zneg (Pos.iter xO m d) = Z.shiftl (Zneg m) (Zpos d).
Proof.
  unfold Z.shiftl.
  apply (Pos.iter_swap_gen _ _ Zneg xO (Z.mul 2)).
  reflexivity.
Qed.

(** Flooring a canonical form of [- m * 2^e], [e] negative. *)
Lemma Math_floor_canon_neg (m : positive) (e : Z) :
  e < 0 -> Math_floor (canon true m e) = of_int true (Z.shiftl (Zneg m) e).
Proof.
  intros He. unfold canon.
  destruct (Z.max 0 (Z.min (prec - Zpos (digits2_pos m)) (e - emin prec emax)))
    as [|d|d] eqn:Hd; cbn [Math_floor cond_Zopp Z.opp].
  - destruct (0 <=? e) eqn:H0; [apply Z.leb_le in H0; lia | reflexivity].
  - destruct (0 <=? e - Zpos d) eqn:H0; [apply Z.leb_le in H0; lia |].
    rewrite Zneg_iter_xO, Z.shiftl_shiftl by lia.
    do 2 f_equal. lia.
  - destruct (0 <=? e) eqn:H0; [apply Z.leb_le in H0; lia | reflexivity].
Qed.

(** For a negative number of seconds, [Math.floor(seconds % 60)] is [- k]
    with [k] between 0 and 60, the integer part of the seconds plus [k]
    being a multiple of 60. *)
Lemma floor_rem_60_neg (m : positive) (e : Z) :
  exists k,
    0 <= k <= 60
    /\ (Z.shiftl (Zneg m) e + k) mod 60 = 0
    /\ Math_floor (js_rem (S754_finite true m e) (num_of_Z 60))
       = of_int true (- k).
Proof.
  rewrite sixty_eq. cbn [js_rem].
  set (e0 := Z.min e (-47)).
  assert (He0 : e0 <= -47) by (unfold e0; lia).
  set (X := Z.shiftl (Zpos m) (e - e0)).
  set (Y := Z.shiftl 8444249301319680 (-47 - e0)).
  set (P := 2 ^ (- e0)).
  assert (HP : 0 < P) by (apply Z.pow_pos_nonneg; lia).
  assert (HY : Y = 60 * P).
  { unfold Y, P. rewrite Z.shiftl_mul_pow2 by lia.
    replace (- e0) with (47 + (-47 - e0)) by lia.
    rewrite Z.pow_add_r by lia.
    change 8444249301319680 with (60 * 2 ^ 47). ring. }
  assert (HR : 0 <= X mod Y < 60 * P) by (rewrite <- HY; apply Z.mod_pos_bound; lia).
  assert (HX : Z.shiftl (Zneg m) e = (- X) / P).
  { unfold X, P. rewrite (Z.shiftl_mul_pow2 (Zpos m)) by (unfold e0; lia).
    replace (- (Zpos m * 2 ^ (e - e0))) with (Zneg m * 2 ^ (e - e0))
      by (change (Zneg m) with (- Zpos m); ring).
    rewrite <- Z.shiftl_mul_pow2 by (unfold e0; lia).
    rewrite <- shiftl_neg_div by lia.
    rewrite Z.shiftl_shiftl by (unfold e0; lia).
    f_equal. lia. }
  set (k := - ((- (X mod Y)) / P)).
  assert (Hk : 0 <= k <= 60).
  { unfold k. split.
    - assert ((- (X mod Y)) / P <= 0); [| lia].
      apply Z.div_le_upper_bound; lia.
    - assert (- 60 <= (- (X mod Y)) / P); [| lia].
      apply Z.div_le_lower_bound; lia. }
  exists k. split; [exact Hk |]. split.
  - rewrite HX.
    rewrite (Z.div_mod X Y) at 1 by lia.
    rewrite HY at 1.
    replace (- (60 * P * (X / Y) + X mod Y))
      with (- (X mod Y) + (- 60 * (X / Y)) * P) by ring.
    rewrite Z.div_add by lia. unfold k.
    replace (- (X mod Y) / P + -60 * (X / Y) + - (- (X mod Y) / P))
      with ((- (X / Y)) * 60) by ring.
    apply Z.mod_mul. lia.
  - destruct (X mod Y) as [|r|r] eqn:Er.
    + unfold k. cbn. reflexivity.
    + rewrite Math_floor_canon_neg by lia. f_equal.
      unfold k. rewrite Z.opp_involutive.
      rewrite shiftl_neg_div by lia. reflexivity.
    + lia.
Qed.

(** The string of a negative whole number of seconds is long enough not to
    be padded. *)
Lemma pad_negative_seconds (k : Z) :
  0 <= k <= 60 ->
  padStart (Number_toString (of_int true (- k))) 2 "0"
  = if k =? 0 then "00" else "-" ++ dec k.
Proof.
  intros Hk. apply String.eqb_eq.
  assert (Hb : 0 <= k < Z.of_nat 61) by lia.
  revert k Hb Hk.
  refine (fun k Hb _ => all_below 61
    (fun k => String.eqb (padStart (Number_toString (of_int true (- k))) 2 "0")
                         (if k =? 0 then "00" else "-" ++ dec k))
    _ k Hb).
  vm_compute. reflexivity.
Qed.

(** X12: [formatTimestamp] outside its domain.  For a negative finite
    number of seconds the part after the colon is "00" or a minus sign
    followed by a number from 1 to 60 (for instance "-1:-5" for -5 seconds,
    "-1:-60" for -59.5), never two digits of seconds unless it is "00"; for
    NaN and the infinities it is "NaN". *)
Theorem formatTimestamp_outside_its_domain :
  (forall m e,
     let seconds := S754_finite true m e in
     exists k,
       0 <= k <= 60
       /\ (floorZ seconds + k) mod 60 = 0
       /\ formatTimestamp seconds
          = Number_toString (Math_floor (js_div seconds (num_of_Z 60)))
              ++ ":" ++ (if k =? 0 then "00" else "-" ++ dec k))
  /\ formatTimestamp (num_of_Z (-5)) = "-1:-5"
  /\ formatTimestamp (num_ratio (-119) 2) = "-1:-60"
  /\ formatTimestamp S754_nan = "NaN:NaN"
  /\ formatTimestamp (S754_infinity false) = "Infinity:NaN"
  /\ formatTimestamp (S754_infinity true) = "-Infinity:NaN".
Proof.
  split; [| repeat split].
  intros m e seconds.
  destruct (floor_rem_60_neg m e) as (k & Hk & Hmod & Hfloor).
  exists k. split; [exact Hk |]. split; [exact Hmod |].
  unfold formatTimestamp, seconds. rewrite Hfloor.
  now rewrite pad_negative_seconds.
Qed.

(** *** Results that do not have the declared type *)





